(** * ThorVG canvas kit: WebGPU acquisition state machine and render-target manager

    Shallow embedding of [src/bindings/canvas_kit/tvgWasmCanvasKit.cpp].

    Pointers and WebGPU handles are integers, [0] being [nullptr].  The
    32-bit unsigned arithmetic of the source is written out with its
    wrap-around.  Calls into the engine, the C allocator, WebGL and WebGPU
    are recorded in a log of external calls, and what they answer is read
    from an oracle, so that every path of the source, the failing ones
    included, can be run. *)

From Stdlib Require Import ZArith List String Bool Lia.
Import ListNotations.
Local Open Scope Z_scope.

(** ** Build configuration

    The three [#ifdef THORVG_*_RASTER_SUPPORT] switches of the source. *)

Record Build : Type := mkBuild {
  sw_support : bool;   (* THORVG_SW_RASTER_SUPPORT *)
  gl_support : bool;   (* THORVG_GL_RASTER_SUPPORT *)
  wg_support : bool    (* THORVG_WG_RASTER_SUPPORT *)
}.

Definition full_build : Build := mkBuild true true true.
Definition sw_only_build : Build := mkBuild true false false.

Definition handle : Type := Z.
Definition null : handle := 0.

(** [!p] of the source. *)
Definition is_null (p : handle) : bool := p =? 0.

(** ** WebGPU global state (source lines 43-48) *)

Module WebGPU.

Record State : Type := mkState {
  instance : handle;
  adapter : handle;
  device : handle;
  adapterRequested : bool;
  deviceRequested : bool;
  initializationFailed : bool
}.

(** The static initialisers: [{}] handles and [false] flags. *)
Definition fresh : State := mkState null null null false false false.

Definition set_instance (v : handle) (g : State) : State :=
  mkState v (adapter g) (device g)
          (adapterRequested g) (deviceRequested g) (initializationFailed g).
Definition set_adapter (v : handle) (g : State) : State :=
  mkState (instance g) v (device g)
          (adapterRequested g) (deviceRequested g) (initializationFailed g).
Definition set_device (v : handle) (g : State) : State :=
  mkState (instance g) (adapter g) v
          (adapterRequested g) (deviceRequested g) (initializationFailed g).
Definition set_adapterRequested (v : bool) (g : State) : State :=
  mkState (instance g) (adapter g) (device g)
          v (deviceRequested g) (initializationFailed g).
Definition set_deviceRequested (v : bool) (g : State) : State :=
  mkState (instance g) (adapter g) (device g)
          (adapterRequested g) v (initializationFailed g).
Definition set_initializationFailed (v : bool) (g : State) : State :=
  mkState (instance g) (adapter g) (device g)
          (adapterRequested g) (deviceRequested g) v.

(** Calls into the WebGPU runtime, with the handle each one is given. *)
Inductive call : Type :=
| wgpuCreateInstance
| wgpuInstanceRequestAdapter (inst : handle)
| wgpuAdapterRequestDevice (adp : handle)
| wgpuDeviceRelease (d : handle)
| wgpuAdapterRelease (a : handle)
| wgpuInstanceRelease (i : handle).

(** Return codes of [init]. *)
Definition READY : Z := 0.
Definition FAILED : Z := 1.
Definition PENDING : Z := 2.

Section Build.
Variable cfg : Build.

(** [init()] (source lines 61-131).  [created] is the handle
    [wgpuCreateInstance(nullptr)] answers when it is called.  The result
    is the return code, the globals after the call and the runtime calls
    made, in order. *)
Definition init (created : handle) (g : State) : Z * State * list call :=
  if wg_support cfg then
    if initializationFailed g then (FAILED, g, [])
    else
      let '(g, cs) :=
        if is_null (instance g)
        then (set_instance created g, [wgpuCreateInstance])
        else (g, []) in
      if is_null (adapter g) then
        if adapterRequested g then (PENDING, g, cs)
        else (PENDING, set_adapterRequested true g,
              cs ++ [wgpuInstanceRequestAdapter (instance g)])
      else if deviceRequested g then
        ((if is_null (device g) then PENDING else READY), g, cs)
      else if is_null (device g) then
        (PENDING, set_deviceRequested true g,
         cs ++ [wgpuAdapterRequestDevice (adapter g)])
      else (READY, g, cs)
  else (READY, g, []).

(** The completion callback [onAdapterRequestEnded] (lines 74-82);
    [userdata1] is [&adapter], the global.  [success] is
    [status == WGPURequestAdapterStatus_Success]. *)
Definition onAdapterRequestEnded (success : bool) (a : handle) (g : State)
  : State :=
  if negb success then set_initializationFailed true g
  else set_adapter a g.

(** The completion callback [onDeviceRequestEnded] (lines 104-111);
    [userdata1] is [&device]. *)
Definition onDeviceRequestEnded (success : bool) (d : handle) (g : State)
  : State :=
  if negb success then set_initializationFailed true g
  else set_device d g.

(** [term()] (source lines 134-146). *)
Definition term (g : State) : State * list call :=
  if wg_support cfg then
    (mkState null null null false false false,
     (if is_null (device g) then [] else [wgpuDeviceRelease (device g)]) ++
     (if is_null (adapter g) then [] else [wgpuAdapterRelease (adapter g)]) ++
     (if is_null (instance g) then [] else [wgpuInstanceRelease (instance g)]))
  else (g, []).

(** *** The host's event loop

    The requests are asynchronous: the runtime keeps each issued request
    in flight until it delivers its completion callback, once, at a time
    of its choosing after the issuing call has returned.  Nothing in the
    source cancels a request, so a request issued before a [term()] is
    still delivered after it.  The world keeps, next to the globals, how
    many requests of each kind are in flight, split into those issued
    since the last [term()] (live) and those issued before it (stale). *)

Record World : Type := mkWorld {
  gpu : State;
  liveAdapter : nat;
  liveDevice : nat;
  staleAdapter : nat;
  staleDevice : nat
}.

Definition boot : World := mkWorld fresh 0 0 0 0.

Inductive request : Type := AdapterRequest | DeviceRequest.

Inductive event : Type :=
| CallInit (created : handle)
| CallTerm
| Completion (r : request) (stale : bool) (success : bool) (h : handle).

(** What an observer of the module sees: the runtime calls and the
    values [init] returns. *)
Inductive obs : Type :=
| Called (c : call)
| InitReturned (r : Z).

Definition count_adapter_requests (cs : list call) : nat :=
  List.length (filter (fun c => match c with
                                | wgpuInstanceRequestAdapter _ => true
                                | _ => false end) cs).
Definition count_device_requests (cs : list call) : nat :=
  List.length (filter (fun c => match c with
                                | wgpuAdapterRequestDevice _ => true
                                | _ => false end) cs).

(** One event.  A completion is enabled only when a request of its kind
    and age is in flight. *)
Definition step (w : World) (e : event) : option (World * list obs) :=
  match e with
  | CallInit created =>
      let '(r, g, cs) := init created (gpu w) in
      Some (mkWorld g
                    (liveAdapter w + count_adapter_requests cs)
                    (liveDevice w + count_device_requests cs)
                    (staleAdapter w) (staleDevice w),
            map Called cs ++ [InitReturned r])
  | CallTerm =>
      let '(g, cs) := term (gpu w) in
      Some (mkWorld g 0 0
                    (staleAdapter w + liveAdapter w)
                    (staleDevice w + liveDevice w),
            map Called cs)
  | Completion AdapterRequest false ok a =>
      match liveAdapter w with
      | O => None
      | S n => Some (mkWorld (onAdapterRequestEnded ok a (gpu w))
                             n (liveDevice w) (staleAdapter w) (staleDevice w),
                     [])
      end
  | Completion AdapterRequest true ok a =>
      match staleAdapter w with
      | O => None
      | S n => Some (mkWorld (onAdapterRequestEnded ok a (gpu w))
                             (liveAdapter w) (liveDevice w) n (staleDevice w),
                     [])
      end
  | Completion DeviceRequest false ok d =>
      match liveDevice w with
      | O => None
      | S n => Some (mkWorld (onDeviceRequestEnded ok d (gpu w))
                             (liveAdapter w) n (staleAdapter w) (staleDevice w),
                     [])
      end
  | Completion DeviceRequest true ok d =>
      match staleDevice w with
      | O => None
      | S n => Some (mkWorld (onDeviceRequestEnded ok d (gpu w))
                             (liveAdapter w) (liveDevice w) (staleAdapter w) n,
                     [])
      end
  end.

Fixpoint run (tr : list event) (w : World) : option (World * list obs) :=
  match tr with
  | [] => Some (w, [])
  | e :: tr' =>
      match step w e with
      | None => None
      | Some (w1, o1) =>
          match run tr' w1 with
          | None => None
          | Some (w2, o2) => Some (w2, o1 ++ o2)
          end
      end
  end.

End Build.

(** What the runtime promises: [wgpuCreateInstance] answers a real
    instance, and a completion that reports success carries a real
    handle. *)
Definition wf_event (e : event) : Prop :=
  match e with
  | CallInit created => created <> null
  | CallTerm => True
  | Completion _ _ success h => success = true -> h <> null
  end.

Definition is_stale_completion (e : event) : bool :=
  match e with
  | Completion _ true _ _ => true
  | _ => false
  end.

Definition is_term (e : event) : bool :=
  match e with CallTerm => true | _ => false end.

Definition is_failure (e : event) : bool :=
  match e with Completion _ _ false _ => true | _ => false end.




(** States in which [init] has nothing left to wait for. *)
Definition settled (cfg : Build) (g : State) : Prop :=
  wg_support cfg = false \/ initializationFailed g = true \/
  (adapter g <> null /\ device g <> null).

Definition failed_state (cfg : Build) (g : State) : Prop :=
  wg_support cfg = true /\ initializationFailed g = true.

Definition ready_state (cfg : Build) (g : State) : Prop :=
  wg_support cfg = false \/
  (initializationFailed g = false /\ adapter g <> null /\ device g <> null).

(** Without stale completions at most one request of each kind is in
    flight, and while it is the flag is set and the handle still null. *)
Definition one_in_flight (cfg : Build) (w : World) : Prop :=
  (liveAdapter w = O \/
   (liveAdapter w = 1%nat /\ adapterRequested (gpu w) = true /\
    adapter (gpu w) = null)) /\
  (liveDevice w = O \/
   (liveDevice w = 1%nat /\ deviceRequested (gpu w) = true /\
    device (gpu w) = null)) /\
  (wg_support cfg = false -> liveAdapter w = O /\ liveDevice w = O).

(** Ready with nothing in flight. *)
Definition ready_and_quiet (cfg : Build) (w : World) : Prop :=
  ready_state cfg (gpu w) /\ liveAdapter w = O /\ liveDevice w = O.

Definition terminal (r : Z) : Prop := r = READY \/ r = FAILED.

Definition returns (P : Z -> Prop) (o : obs) : Prop :=
  match o with
  | InitReturned r => P r
  | Called _ => True
  end.

Definition no_term (e : event) : Prop := is_term e = false.
Definition no_failure (e : event) : Prop := is_failure e = false.
Definition no_stale (e : event) : Prop := is_stale_completion e = false.

Definition delivers_failure (e : event) : Prop := is_failure e = true.


(** A run in which [term()] is called while the adapter request is in
    flight; the request completes later with a failure, after a second
    round of requests has produced a device. *)
Definition late_failure_prefix : list event :=
  [CallInit 1; CallTerm; CallInit 1;
   Completion AdapterRequest false true 2; CallInit 1;
   Completion DeviceRequest false true 3].
Definition late_failure_suffix : list event :=
  [Completion AdapterRequest true false 0; CallInit 1].


(** A run that ends with a device, and the state it ends in. *)
Definition ready_trace : list event :=
  [CallInit 1; Completion AdapterRequest false true 2; CallInit 1;
   Completion DeviceRequest false true 3].
Definition ready_end : World :=
  mkWorld (mkState 1 2 3 true true false) 0 0 0 0.
Definition ready_obs : list obs :=
  [Called wgpuCreateInstance; Called (wgpuInstanceRequestAdapter 1);
   InitReturned PENDING;
   Called (wgpuAdapterRequestDevice 2); InitReturned PENDING].

End WebGPU.

(** ** The render-target manager: class [ThorVGEngine] (lines 152-339) *)

Module Engine.

(** The fields of the class, with their default member initialisers.
    [surface] exists in WebGPU builds and [gl_context] in GL builds; a
    build without them never touches the field. *)
Record ThorVGEngine : Type := mkEngine {
  canvas : handle;
  buffer : handle;
  width : Z;
  height : Z;
  engine_type : string;
  surface : handle;
  gl_context : Z
}.

Definition new_engine : ThorVGEngine :=
  mkEngine null null 0 0 EmptyString null 0.

Definition set_canvas (v : handle) (m : ThorVGEngine) : ThorVGEngine :=
  mkEngine v (buffer m) (width m) (height m) (engine_type m)
           (surface m) (gl_context m).
Definition set_buffer (v : handle) (m : ThorVGEngine) : ThorVGEngine :=
  mkEngine (canvas m) v (width m) (height m) (engine_type m)
           (surface m) (gl_context m).
Definition set_width (v : Z) (m : ThorVGEngine) : ThorVGEngine :=
  mkEngine (canvas m) (buffer m) v (height m) (engine_type m)
           (surface m) (gl_context m).
Definition set_height (v : Z) (m : ThorVGEngine) : ThorVGEngine :=
  mkEngine (canvas m) (buffer m) (width m) v (engine_type m)
           (surface m) (gl_context m).
Definition set_engine_type (v : string) (m : ThorVGEngine) : ThorVGEngine :=
  mkEngine (canvas m) (buffer m) (width m) (height m) v
           (surface m) (gl_context m).
Definition set_surface (v : handle) (m : ThorVGEngine) : ThorVGEngine :=
  mkEngine (canvas m) (buffer m) (width m) (height m) (engine_type m)
           v (gl_context m).
Definition set_gl_context (v : Z) (m : ThorVGEngine) : ThorVGEngine :=
  mkEngine (canvas m) (buffer m) (width m) (height m) (engine_type m)
           (surface m) v.

(** [uint32_t] arithmetic: [w * h * 4] wraps modulo 2^32 (and [size_t]
    is 32 bits wide on the wasm32 target). *)
Definition u32 (z : Z) : Z := z mod 2 ^ 32.
Definition u32_mul (a b : Z) : Z := u32 (a * b).
Definition buffer_bytes (w h : Z) : Z := u32_mul (u32_mul w h) 4.

(** Calls that leave the class, in the order the source makes them. *)
Inductive call : Type :=
| Initializer_init
| Text_load
| SwCanvas_gen
| GlCanvas_gen
| WgCanvas_gen
| malloc (size : Z)
| free (p : handle)
| delete_canvas (c : handle)
| SwCanvas_target (c buf : handle) (stride w h : Z)
| GlCanvas_target (c : handle) (context : Z) (w h : Z)
| WgCanvas_target (c dev inst surf : handle) (w h : Z)
| emscripten_webgl_create_context (selector : string)
| emscripten_webgl_make_context_current (context : Z)
| wgpuInstanceCreateSurface (inst : handle) (selector : string)
| Canvas_sync (c : handle)
| Canvas_remove (c : handle).

(** What the callees answer.  Each is called at most once in a member
    function, so one answer per callee describes a call of the member. *)
Record Oracle : Type := mkOracle {
  engine_init_success : bool;     (* Initializer::init() == Result::Success *)
  sw_canvas : handle;             (* SwCanvas::gen() *)
  gl_canvas : handle;             (* GlCanvas::gen() *)
  wg_canvas : handle;             (* WgCanvas::gen() *)
  allocated : Z -> handle;        (* malloc(size) *)
  webgl_context : string -> Z;    (* emscripten_webgl_create_context *)
  wg_surface : handle -> string -> handle  (* wgpuInstanceCreateSurface *)
}.

(** JavaScript values handed back through embind. *)
Inductive val : Type :=
| undefined
| typed_memory_view (size : Z) (data : handle)
| size_object (w h : Z).

Section Members.
Variable cfg : Build.
Variable env : Oracle.
(** The WebGPU globals; [createCanvas] and [resize] read [instance] and
    [device] in the "wg" branch. *)
Variable g : WebGPU.State.

(** [createCanvas] (lines 189-270): the returned [uintptr_t], the object
    after the call and the calls made. *)
Definition createCanvas (engine selector : string) (w h : Z)
  (m : ThorVGEngine) : Z * ThorVGEngine * list call :=
  let m := set_engine_type engine m in
  let m := set_width w m in
  let m := set_height h m in
  if negb (engine_init_success env) then (0, m, [Initializer_init])
  else
    let cs := [Initializer_init; Text_load] in
    if (engine =? "sw")%string then
      if sw_support cfg then
        let m := set_canvas (sw_canvas env) m in
        if is_null (canvas m) then (0, m, cs ++ [SwCanvas_gen])
        else
          let n := buffer_bytes w h in
          let m := set_buffer (allocated env n) m in
          if is_null (buffer m) then
            (0, set_canvas null m,
             cs ++ [SwCanvas_gen; malloc n; delete_canvas (canvas m)])
          else
            (canvas m, m,
             cs ++ [SwCanvas_gen; malloc n;
                    SwCanvas_target (canvas m) (buffer m) w w h])
      else (canvas m, m, cs)
    else if gl_support cfg && (engine =? "gl")%string then
      let m := set_gl_context (webgl_context env selector) m in
      if (gl_context m =? 0) then
        (0, m, cs ++ [emscripten_webgl_create_context selector])
      else
        let cs := cs ++ [emscripten_webgl_create_context selector;
                         emscripten_webgl_make_context_current (gl_context m)] in
        let m := set_canvas (gl_canvas env) m in
        if is_null (canvas m) then (0, m, cs ++ [GlCanvas_gen])
        else
          (canvas m, m,
           cs ++ [GlCanvas_gen; GlCanvas_target (canvas m) (gl_context m) w h])
    else if wg_support cfg && (engine =? "wg")%string then
      let m := set_surface (wg_surface env (WebGPU.instance g) selector) m in
      let cs := cs ++ [wgpuInstanceCreateSurface (WebGPU.instance g) selector] in
      if is_null (surface m) then (0, m, cs)
      else
        let m := set_canvas (wg_canvas env) m in
        if is_null (canvas m) then (0, m, cs ++ [WgCanvas_gen])
        else
          (canvas m, m,
           cs ++ [WgCanvas_gen;
                  WgCanvas_target (canvas m) (WebGPU.device g)
                                  (WebGPU.instance g) (surface m) w h])
    else (canvas m, m, cs).

(** [resize] (lines 273-308). *)
Definition resize (w h : Z) (m : ThorVGEngine)
  : bool * ThorVGEngine * list call :=
  if is_null (canvas m) then (false, m, [])
  else if (width m =? w) && (height m =? h) then (true, m, [])
  else
    let cs := [Canvas_sync (canvas m)] in
    let m := set_width w m in
    let m := set_height h m in
    if (engine_type m =? "sw")%string then
      if sw_support cfg then
        let old := buffer m in
        let n := buffer_bytes w h in
        let m := set_buffer (allocated env n) m in
        if is_null (buffer m) then (false, m, cs ++ [free old; malloc n])
        else
          (true, m,
           cs ++ [free old; malloc n;
                  SwCanvas_target (canvas m) (buffer m) w w h])
      else (true, m, cs)
    else if gl_support cfg && (engine_type m =? "gl")%string then
      (true, m, cs ++ [GlCanvas_target (canvas m) (gl_context m) w h])
    else if wg_support cfg && (engine_type m =? "wg")%string then
      (true, m,
       cs ++ [WgCanvas_target (canvas m) (WebGPU.device g)
                              (WebGPU.instance g) (surface m) w h])
    else (true, m, cs).

(** [clear] (lines 311-315). *)
Definition clear (m : ThorVGEngine) : bool * ThorVGEngine * list call :=
  if is_null (canvas m) then (false, m, [])
  else (true, m, [Canvas_remove (canvas m)]).

(** [render] (lines 318-323). *)
Definition render (m : ThorVGEngine) : val :=
  if negb (is_null (buffer m)) && ((engine_type m =? "sw")%string) then
    typed_memory_view (buffer_bytes (width m) (height m)) (buffer m)
  else undefined.

(** [size] (lines 326-331). *)
Definition size (m : ThorVGEngine) : val :=
  size_object (width m) (height m).

(** [getCanvas] (lines 334-336). *)
Definition getCanvas (m : ThorVGEngine) : Z := canvas m.

(** [getEngineType] (line 338). *)
Definition getEngineType (m : ThorVGEngine) : string := engine_type m.

End Members.

(** Does a call obtain a target resource (canvas object, pixel buffer,
    GL context or GPU surface)? *)
Definition acquires (c : call) : bool :=
  match c with
  | SwCanvas_gen | GlCanvas_gen | WgCanvas_gen | malloc _
  | emscripten_webgl_create_context _ | wgpuInstanceCreateSurface _ _ => true
  | _ => false
  end.

Definition oom (env : Oracle) (w h : Z) : Prop :=
  allocated env (buffer_bytes w h) = null.

(** The backend names a build answers to. *)
Definition backend_available (cfg : Build) (engine : string) : bool :=
  (sw_support cfg && (engine =? "sw")%string) ||
  (gl_support cfg && (engine =? "gl")%string) ||
  (wg_support cfg && (engine =? "wg")%string).

(** The manager holds no target resource. *)
Definition no_resources (m : ThorVGEngine) : Prop :=
  canvas m = null /\ buffer m = null /\ gl_context m = 0 /\ surface m = null.

(** An oracle under which everything succeeds, one whose allocator is
    exhausted, and a software target of 800 by 600 pixels. *)
Definition plentiful : Oracle :=
  mkOracle true 100 200 300 (fun _ => 4096) (fun _ => 7) (fun _ _ => 9).
Definition exhausted : Oracle :=
  mkOracle true 100 200 300 (fun _ => null) (fun _ => 7) (fun _ _ => 9).
Definition sw_800_600 : ThorVGEngine :=
  mkEngine 100 4096 800 600 "sw" null 0.

(** A software target of 65536 by 16384 pixels, as [createCanvas] leaves
    it when its allocations succeed. *)
Definition sw_65536_16384 : ThorVGEngine :=
  mkEngine 100 4096 65536 16384 "sw" null 0.

End Engine.

(** ** Observing the polling loop *)

Module Polling.
Import WebGPU.

(** The requests issued, the codes returned and the runtime calls made
    along a run. *)
Definition adapter_requests (os : list obs) : nat :=
  List.length (filter (fun o => match o with
                                | Called (wgpuInstanceRequestAdapter _) => true
                                | _ => false end) os).
Definition device_requests (os : list obs) : nat :=
  List.length (filter (fun o => match o with
                                | Called (wgpuAdapterRequestDevice _) => true
                                | _ => false end) os).
Definition init_returns (os : list obs) : list Z :=
  flat_map (fun o => match o with InitReturned r => [r] | Called _ => [] end)
           os.
Definition runtime_calls (os : list obs) : list call :=
  flat_map (fun o => match o with Called c => [c] | InitReturned _ => [] end)
           os.

(** How many requests [init] may still issue before the next [term()]. *)
Definition adapter_budget (g : State) : nat :=
  if adapterRequested g then 0%nat else 1%nat.
Definition device_budget (g : State) : nat :=
  if deviceRequested g then 0%nat else 1%nat.

(** A handle is there, or a request is in flight, only after the request
    was issued. *)
Definition flags_track (w : World) : Prop :=
  (adapter (gpu w) <> null -> adapterRequested (gpu w) = true) /\
  (device (gpu w) <> null -> deviceRequested (gpu w) = true) /\
  (liveAdapter w <> O -> adapterRequested (gpu w) = true) /\
  (liveDevice w <> O -> deviceRequested (gpu w) = true).


(** One full cycle: teardown, then three polls with the two completions
    in between. *)
Definition acquisition_cycle (i a d c2 c3 : handle) : list event :=
  [CallTerm; CallInit i; Completion AdapterRequest false true a;
   CallInit c2; Completion DeviceRequest false true d; CallInit c3].

End Polling.

(** ** The life of a render-target manager *)

Module Lifecycle.
Import Engine.

(** Calls the destructor makes that no other member makes. *)
Inductive teardown_call : Type :=
| member_call (c : call)
| Initializer_term
| retrieveFont
| wgpuSurfaceRelease (s : handle)
| emscripten_webgl_destroy_context (context : Z).

(** [~ThorVGEngine()] (lines 169-185): the object as the destructor
    leaves it and the calls made. *)
Definition destructor (cfg : Build) (m : ThorVGEngine)
  : ThorVGEngine * list teardown_call :=
  let cs :=
    (if is_null (canvas m) then []
     else [member_call (delete_canvas (canvas m))]) ++
    (if is_null (buffer m) then []
     else [member_call (free (buffer m))]) ++
    [Initializer_term; retrieveFont] ++
    (if wg_support cfg then
       if is_null (surface m) then [] else [wgpuSurfaceRelease (surface m)]
     else []) in
  if gl_support cfg then
    if gl_context m =? 0 then (m, cs)
    else (set_gl_context 0 m,
          cs ++ [emscripten_webgl_destroy_context (gl_context m)])
  else (m, cs).

(** What a manager can own. *)
Inductive kind : Type := CanvasObject | PixelBuffer | GLContext | GPUSurface.

Definition kind_eqb (k1 k2 : kind) : bool :=
  match k1, k2 with
  | CanvasObject, CanvasObject | PixelBuffer, PixelBuffer
  | GLContext, GLContext | GPUSurface, GPUSurface => true
  | _, _ => false
  end.

(** A resource changing hands: obtained from, or given back to, the
    engine, the allocator, WebGL or WebGPU. *)
Inductive movement : Type :=
| Obtain (k : kind) (x : Z)
| Release (k : kind) (x : Z).

Definition obtained (k : kind) (x : Z) : list movement :=
  if is_null x then [] else [Obtain k x].

(** The movements of a member call, given what the callee answered.
    [free(nullptr)] gives nothing back. *)
Definition movements (env : Oracle) (c : call) : list movement :=
  match c with
  | SwCanvas_gen => obtained CanvasObject (sw_canvas env)
  | GlCanvas_gen => obtained CanvasObject (gl_canvas env)
  | WgCanvas_gen => obtained CanvasObject (wg_canvas env)
  | malloc n => obtained PixelBuffer (allocated env n)
  | emscripten_webgl_create_context sel =>
      obtained GLContext (webgl_context env sel)
  | wgpuInstanceCreateSurface inst sel =>
      obtained GPUSurface (wg_surface env inst sel)
  | free p => if is_null p then [] else [Release PixelBuffer p]
  | delete_canvas c => [Release CanvasObject c]
  | _ => []
  end.

Definition teardown_movements (t : teardown_call) : list movement :=
  match t with
  | member_call (free p) =>
      if is_null p then [] else [Release PixelBuffer p]
  | member_call (delete_canvas c) => [Release CanvasObject c]
  | wgpuSurfaceRelease s => [Release GPUSurface s]
  | emscripten_webgl_destroy_context x => [Release GLContext x]
  | _ => []
  end.

(** Follows one kind of resource through a list of movements: [held] is
    what the manager owns.  Obtaining while owning (the old one is
    lost) and releasing anything but what is owned (a double or stray
    release) both fail. *)
Fixpoint track (k : kind) (held : option Z) (l : list movement)
  : option (option Z) :=
  match l with
  | [] => Some held
  | Obtain k' x :: l' =>
      if kind_eqb k k' then
        match held with
        | None => track k (Some x) l'
        | Some _ => None
        end
      else track k held l'
  | Release k' x :: l' =>
      if kind_eqb k k' then
        match held with
        | Some y => if x =? y then track k None l' else None
        | None => None
        end
      else track k held l'
  end.

(** What the fields of the object say it owns. *)
Definition owned (cfg : Build) (k : kind) (m : ThorVGEngine) : option Z :=
  match k with
  | CanvasObject => if is_null (canvas m) then None else Some (canvas m)
  | PixelBuffer => if is_null (buffer m) then None else Some (buffer m)
  | GLContext =>
      if gl_support cfg && negb (gl_context m =? 0)
      then Some (gl_context m) else None
  | GPUSurface =>
      if wg_support cfg && negb (is_null (surface m))
      then Some (surface m) else None
  end.

(** The members a caller invokes between creation and destruction, each
    [resize] with the answers its callees give. *)
Inductive op : Type :=
| Resize (env : Oracle) (w h : Z)
| Clear.

Section Ops.
Variable cfg : Build.
Variable g : WebGPU.State.

Definition apply_op (o : op) (m : ThorVGEngine)
  : ThorVGEngine * list movement :=
  match o with
  | Resize env w h =>
      let '(_, m', cs) := resize cfg env g w h m in
      (m', flat_map (movements env) cs)
  | Clear =>
      let '(_, m', cs) := clear m in
      (m', [])
  end.

Fixpoint apply_ops (os : list op) (m : ThorVGEngine)
  : ThorVGEngine * list movement :=
  match os with
  | [] => (m, [])
  | o :: os' =>
      let '(m1, l1) := apply_op o m in
      let '(m2, l2) := apply_ops os' m1 in
      (m2, l1 ++ l2)
  end.

(** A whole life: construction, one [createCanvas], the operations, the
    destructor. *)
Definition life (env : Oracle) (engine selector : string) (w h : Z)
  (os : list op) : list movement :=
  let '(_, m1, cs1) := createCanvas cfg env g engine selector w h new_engine in
  let '(m2, l2) := apply_ops os m1 in
  flat_map (movements env) cs1 ++ l2 ++
  flat_map teardown_movements (snd (destructor cfg m2)).

End Ops.

End Lifecycle.

(** * Properties *)

Lemma is_null_true p : is_null p = true <-> p = null.
Proof. unfold is_null, null. apply Z.eqb_eq. Qed.

Lemma is_null_false p : is_null p = false <-> p <> null.
Proof. unfold is_null, null. apply Z.eqb_neq. Qed.

(** ** The WebGPU acquisition state machine *)

Section WebGPU_theory.
Import WebGPU.

(** Splits an equation [init cfg created g = (r, g', cs)] into the paths
    of [init], leaving in each the tests that lead there. *)
Ltac init_paths H :=
  unfold init in H;
  repeat match type of H with
         | context [if ?b then _ else _] =>
             let E := fresh "E" in destruct b eqn:E; simpl in H
         end;
  inversion H; subst; clear H; simpl in *.

Ltac nulls :=
  repeat match goal with
         | E : is_null _ = true |- _ => apply is_null_true in E
         | E : is_null _ = false |- _ => apply is_null_false in E
         end.

(** An invariant of [step] along a trace, with what it says of the
    observations. *)
Lemma run_invariant (cfg : Build) (I : World -> Prop) (Q : obs -> Prop)
  (allowed : event -> Prop) :
  (forall w e w' os,
      I w -> allowed e -> step cfg w e = Some (w', os) ->
      I w' /\ Forall Q os) ->
  forall tr w w' os,
    I w -> Forall allowed tr -> run cfg tr w = Some (w', os) ->
    I w' /\ Forall Q os.
Proof.
  intros Hstep tr. induction tr as [|e tr IH]; intros w w' os Hw Htr Hrun.
  - simpl in Hrun. inversion Hrun; subst. split; [assumption | constructor].
  - simpl in Hrun. inversion Htr as [|? ? He Htr']; subst.
    destruct (step cfg w e) as [[w1 o1]|] eqn:Es; [|discriminate].
    destruct (run cfg tr w1) as [[w2 o2]|] eqn:Er; [|discriminate].
    inversion Hrun; subst.
    destruct (Hstep _ _ _ _ Hw He Es) as [Hw1 Ho1].
    destruct (IH _ _ _ Hw1 Htr' Er) as [Hw2 Ho2].
    split; [assumption | apply Forall_app; split; assumption].
Qed.

(** Every step of [step] is one of four things. *)
Lemma step_cases cfg w e w' os :
  step cfg w e = Some (w', os) ->
  (exists c r g cs, e = CallInit c /\ init cfg c (gpu w) = (r, g, cs) /\
     gpu w' = g /\ os = map Called cs ++ [InitReturned r] /\
     liveAdapter w' = (liveAdapter w + count_adapter_requests cs)%nat /\
     liveDevice w' = (liveDevice w + count_device_requests cs)%nat) \/
  (e = CallTerm /\ gpu w' = fst (term cfg (gpu w)) /\
     os = map Called (snd (term cfg (gpu w))) /\
     liveAdapter w' = O /\ liveDevice w' = O) \/
  (exists stale ok a, e = Completion AdapterRequest stale ok a /\ os = [] /\
     gpu w' = onAdapterRequestEnded ok a (gpu w) /\
     (stale = false -> liveAdapter w = S (liveAdapter w') /\
                       liveDevice w' = liveDevice w)) \/
  (exists stale ok d, e = Completion DeviceRequest stale ok d /\ os = [] /\
     gpu w' = onDeviceRequestEnded ok d (gpu w) /\
     (stale = false -> liveDevice w = S (liveDevice w') /\
                       liveAdapter w' = liveAdapter w)).
Proof.
  intros H. destruct e as [c| |[|] [|] ok h]; simpl in H.
  - left. destruct (init cfg c (gpu w)) as [[r g] cs] eqn:Ei.
    inversion H; subst. exists c, r, g, cs. simpl.
    repeat split; try reflexivity; assumption.
  - right; left. destruct (term cfg (gpu w)) as [g cs] eqn:Et.
    inversion H; subst. simpl. repeat split; reflexivity.
  - right; right; left. destruct (staleAdapter w); [discriminate|].
    inversion H; subst. exists true, ok, h. simpl.
    repeat split; try reflexivity; discriminate.
  - right; right; left. destruct (liveAdapter w) eqn:El; [discriminate|].
    inversion H; subst. exists false, ok, h. simpl.
    repeat split; reflexivity.
  - right; right; right. destruct (staleDevice w); [discriminate|].
    inversion H; subst. exists true, ok, h. simpl.
    repeat split; try reflexivity; discriminate.
  - right; right; right. destruct (liveDevice w) eqn:El; [discriminate|].
    inversion H; subst. exists false, ok, h. simpl.
    repeat split; reflexivity.
Qed.









Lemma returns_init (P : Z -> Prop) cs r :
  P r -> Forall (returns P) (map Called cs ++ [InitReturned r]).
Proof.
  intros Hr. apply Forall_app. split.
  - apply Forall_forall. intros o Ho. apply in_map_iff in Ho.
    destruct Ho as (c & <- & _). exact I.
  - repeat constructor. exact Hr.
Qed.

Ltac codes := unfold terminal, READY, FAILED, PENDING in *.

Lemma init_terminal_settled cfg c g r g' cs :
  init cfg c g = (r, g', cs) -> terminal r -> settled cfg g'.
Proof.
  unfold settled. intros H Hr.
  init_paths H; nulls; codes; auto; destruct Hr; discriminate.
Qed.

Lemma init_failed_state cfg c g g' cs :
  init cfg c g = (FAILED, g', cs) -> failed_state cfg g'.
Proof.
  unfold failed_state. intros H. init_paths H; codes; auto; discriminate.
Qed.

Lemma init_ready_state cfg c g g' cs :
  init cfg c g = (READY, g', cs) -> ready_state cfg g'.
Proof.
  unfold ready_state. intros H.
  init_paths H; nulls; codes; auto; discriminate.
Qed.

Lemma init_when_settled cfg c g r g' cs :
  settled cfg g -> init cfg c g = (r, g', cs) ->
  terminal r /\ settled cfg g'.
Proof.
  unfold settled. intros Hs H.
  init_paths H; nulls; codes; intuition congruence.
Qed.

Lemma init_when_failed cfg c g r g' cs :
  failed_state cfg g -> init cfg c g = (r, g', cs) ->
  r = FAILED /\ failed_state cfg g'.
Proof.
  unfold failed_state. intros [Hwg Hf] H.
  init_paths H; nulls; codes; intuition congruence.
Qed.

Lemma init_when_ready cfg c g r g' cs :
  ready_state cfg g -> init cfg c g = (r, g', cs) ->
  r = READY /\ ready_state cfg g'.
Proof.
  unfold ready_state. intros Hs H.
  init_paths H; nulls; codes; intuition congruence.
Qed.

Lemma step_settled cfg w e w' os :
  settled cfg (gpu w) -> wf_event e /\ no_term e ->
  step cfg w e = Some (w', os) ->
  settled cfg (gpu w') /\ Forall (returns terminal) os.
Proof.
  intros Hw [He Ht] H.
  destruct (step_cases _ _ _ _ _ H)
    as [(c & r & g & cs & -> & Ei & Hg & -> & _)
       |[(-> & _)
        |[(st & ok & a & -> & -> & Hg & _)|(st & ok & d & -> & -> & Hg & _)]]].
  - destruct (init_when_settled _ _ _ _ _ _ Hw Ei) as [Hr Hs]. subst g.
    split; [assumption | apply returns_init; assumption].
  - discriminate Ht.
  - split; [|constructor]. rewrite Hg. unfold settled in *.
    unfold onAdapterRequestEnded. destruct ok; simpl in *; [|auto].
    specialize (He eq_refl). tauto.
  - split; [|constructor]. rewrite Hg. unfold settled in *.
    unfold onDeviceRequestEnded. destruct ok; simpl in *; [|auto].
    specialize (He eq_refl). tauto.
Qed.

Lemma step_failed cfg w e w' os :
  failed_state cfg (gpu w) -> no_term e ->
  step cfg w e = Some (w', os) ->
  failed_state cfg (gpu w') /\ Forall (returns (fun r => r = FAILED)) os.
Proof.
  intros Hw Ht H.
  destruct (step_cases _ _ _ _ _ H)
    as [(c & r & g & cs & -> & Ei & Hg & -> & _)
       |[(-> & _)
        |[(st & ok & a & -> & -> & Hg & _)|(st & ok & d & -> & -> & Hg & _)]]].
  - destruct (init_when_failed _ _ _ _ _ _ Hw Ei) as [Hr Hs]. subst g.
    split; [assumption | apply returns_init; assumption].
  - discriminate Ht.
  - split; [|constructor]. rewrite Hg. unfold failed_state in *.
    unfold onAdapterRequestEnded. destruct ok; simpl; tauto.
  - split; [|constructor]. rewrite Hg. unfold failed_state in *.
    unfold onDeviceRequestEnded. destruct ok; simpl; tauto.
Qed.

Lemma step_ready cfg w e w' os :
  ready_state cfg (gpu w) -> wf_event e /\ no_term e /\ no_failure e ->
  step cfg w e = Some (w', os) ->
  ready_state cfg (gpu w') /\ Forall (returns (fun r => r = READY)) os.
Proof.
  intros Hw (He & Ht & Hf) H.
  destruct (step_cases _ _ _ _ _ H)
    as [(c & r & g & cs & -> & Ei & Hg & -> & _)
       |[(-> & _)
        |[(st & ok & a & -> & -> & Hg & _)|(st & ok & d & -> & -> & Hg & _)]]].
  - destruct (init_when_ready _ _ _ _ _ _ Hw Ei) as [Hr Hs]. subst g.
    split; [assumption | apply returns_init; assumption].
  - discriminate Ht.
  - split; [|constructor]. rewrite Hg. unfold ready_state in *.
    destruct ok; [|discriminate Hf]. specialize (He eq_refl). simpl. tauto.
  - split; [|constructor]. rewrite Hg. unfold ready_state in *.
    destruct ok; [|discriminate Hf]. specialize (He eq_refl). simpl. tauto.
Qed.




(** C2, as stated, fails: after [init()] has returned 0, the failing
    completion of an adapter request issued before an earlier [term()]
    sets the failure flag, and the next [init()] returns 1, with no
    [term()] in between. *)
Lemma late_failure_after_ready :
  ~ (forall tr1 tr2 c w1 o1 r g cs w2 o2,
        Forall wf_event (tr1 ++ CallInit c :: tr2) ->
        run full_build tr1 boot = Some (w1, o1) ->
        init full_build c (gpu w1) = (r, g, cs) ->
        terminal r ->
        Forall no_term tr2 ->
        run full_build (CallInit c :: tr2) w1 = Some (w2, o2) ->
        Forall (returns (fun r' => r' = r)) o2).
Proof.
  intros H.
  specialize (H late_failure_prefix late_failure_suffix 1
                (mkWorld (mkState 1 2 3 true true false) 0 0 1 0)
                (map Called [wgpuCreateInstance; wgpuInstanceRequestAdapter 1]
                   ++ [InitReturned 2]
                   ++ map Called [wgpuInstanceRelease 1; wgpuCreateInstance;
                                  wgpuInstanceRequestAdapter 1]
                   ++ [InitReturned 2]
                   ++ map Called [wgpuAdapterRequestDevice 2]
                   ++ [InitReturned 2])
                READY (mkState 1 2 3 true true false) []
                (mkWorld (mkState 1 2 3 true true true) 0 0 0 0)
                [InitReturned READY; InitReturned FAILED]).
  assert (Hf : Forall (returns (fun r' => r' = READY))
                 [InitReturned READY; InitReturned FAILED]).
  { apply H.
    - repeat constructor; simpl; intros; discriminate.
    - reflexivity.
    - reflexivity.
    - left; reflexivity.
    - repeat constructor.
    - reflexivity. }
  inversion Hf as [|? ? _ Hf']; subst.
  inversion Hf' as [|? ? Hbad _]; subst.
  simpl in Hbad. discriminate Hbad.
Qed.

(** [init] keeps at most one request of each kind in flight. *)
Lemma init_one_in_flight cfg c w r g cs w' :
  one_in_flight cfg w ->
  init cfg c (gpu w) = (r, g, cs) ->
  gpu w' = g ->
  liveAdapter w' = (liveAdapter w + count_adapter_requests cs)%nat ->
  liveDevice w' = (liveDevice w + count_device_requests cs)%nat ->
  one_in_flight cfg w'.
Proof.
  unfold one_in_flight. intros (Ha & Hd & Hoff) Hi Hg Hla Hld.
  rewrite Hg, Hla, Hld. clear Hg Hla Hld.
  init_paths Hi; nulls; unfold count_adapter_requests, count_device_requests;
    simpl; rewrite ?Nat.add_0_r; intuition (congruence || lia).
Qed.

Lemma step_one_in_flight cfg w e w' os :
  one_in_flight cfg w -> wf_event e /\ no_stale e ->
  step cfg w e = Some (w', os) ->
  one_in_flight cfg w' /\ Forall (fun _ => True) os.
Proof.
  intros Hw [He Hs] H. split; [|apply Forall_forall; auto].
  destruct (step_cases _ _ _ _ _ H)
    as [(c & r & g & cs & -> & Ei & Hg & _ & Hla & Hld)
       |[(-> & Hg & _ & Hla & Hld)
        |[(st & ok & a & -> & _ & Hg & Hl)|(st & ok & d & -> & _ & Hg & Hl)]]].
  - eapply init_one_in_flight; eauto.
  - unfold one_in_flight. rewrite Hla, Hld. auto.
  - destruct st; [discriminate|]. destruct (Hl eq_refl) as [Hl1 Hl2].
    destruct Hw as (Ha & Hd & Hoff).
    unfold one_in_flight. rewrite Hg, Hl2.
    unfold onAdapterRequestEnded. destruct ok; simpl;
      intuition (congruence || lia).
  - destruct st; [discriminate|]. destruct (Hl eq_refl) as [Hl1 Hl2].
    destruct Hw as (Ha & Hd & Hoff).
    unfold one_in_flight. rewrite Hg, Hl2.
    unfold onDeviceRequestEnded. destruct ok; simpl;
      intuition (congruence || lia).
Qed.

Lemma boot_one_in_flight cfg : one_in_flight cfg boot.
Proof. unfold one_in_flight. simpl. auto. Qed.

Lemma init_ready_issues_nothing cfg c g r g' cs :
  ready_state cfg g -> init cfg c g = (r, g', cs) ->
  count_adapter_requests cs = O /\ count_device_requests cs = O.
Proof.
  unfold ready_state. intros Hs H.
  init_paths H; nulls; split; try reflexivity;
    exfalso; intuition congruence.
Qed.

Lemma ready_is_quiet cfg w :
  one_in_flight cfg w -> ready_state cfg (gpu w) -> ready_and_quiet cfg w.
Proof.
  unfold one_in_flight, ready_state, ready_and_quiet.
  intros (Ha & Hd & Hoff) Hr. split; [exact Hr|].
  destruct Hr as [Hwg | (_ & Hra & Hrd)]; [auto|].
  destruct Ha as [Ha | (_ & _ & Ha)]; [|contradiction].
  destruct Hd as [Hd | (_ & _ & Hd)]; [|contradiction].
  auto.
Qed.

Lemma step_ready_and_quiet cfg w e w' os :
  ready_and_quiet cfg w -> no_term e /\ no_stale e ->
  step cfg w e = Some (w', os) ->
  ready_and_quiet cfg w' /\ Forall (returns (fun r => r = READY)) os.
Proof.
  intros (Hr & Hqa & Hqd) [Ht Hs] H.
  destruct (step_cases _ _ _ _ _ H)
    as [(c & r & g & cs & -> & Ei & Hg & -> & Hla & Hld)
       |[(-> & _)
        |[(st & ok & a & -> & _ & _ & Hl)|(st & ok & d & -> & _ & _ & Hl)]]].
  - destruct (init_when_ready _ _ _ _ _ _ Hr Ei) as [-> Hr'].
    destruct (init_ready_issues_nothing _ _ _ _ _ _ Hr Ei) as [Hca Hcd].
    split; [|apply returns_init; reflexivity].
    unfold ready_and_quiet. rewrite Hg, Hla, Hld, Hqa, Hqd, Hca, Hcd. auto.
  - discriminate Ht.
  - destruct st; [discriminate|]. destruct (Hl eq_refl) as [Hl1 _].
    congruence.
  - destruct st; [discriminate|]. destruct (Hl eq_refl) as [Hl1 _].
    congruence.
Qed.

(** Where a late failure comes from: on traces in which no stale
    completion is delivered, no request is in flight once [init()] has
    returned 0, and a terminal result is repeated by every later call
    until the next [term()]. *)
Lemma sticky_without_stale_completions cfg tr1 tr2 c w1 o1 r g cs w2 o2 :
  Forall wf_event tr1 -> Forall no_stale tr1 ->
  run cfg tr1 boot = Some (w1, o1) ->
  init cfg c (gpu w1) = (r, g, cs) ->
  terminal r ->
  Forall no_term tr2 -> Forall no_stale tr2 ->
  run cfg (CallInit c :: tr2) w1 = Some (w2, o2) ->
  Forall (returns (fun r' => r' = r)) o2.
Proof.
  intros Hwf Hns Hrun1 Hi Hr Hnt Hns2 Hrun2.
  pose proof (proj1 (run_invariant cfg (one_in_flight cfg) (fun _ => True)
                       (fun e => wf_event e /\ no_stale e)
                       (step_one_in_flight cfg) tr1 boot w1 o1
                       (boot_one_in_flight cfg)
                       (Forall_and Hwf Hns) Hrun1)) as H1.
  simpl in Hrun2. rewrite Hi in Hrun2.
  destruct (run cfg tr2 _) as [[w3 o3]|] eqn:Er; [|discriminate].
  inversion Hrun2; subst. clear Hrun2.
  rewrite <- app_assoc. apply Forall_app. split.
  { apply Forall_forall. intros o Ho. apply in_map_iff in Ho.
    destruct Ho as (c0 & <- & _). exact I. }
  simpl. constructor; [reflexivity|].
  destruct Hr as [-> | ->].
  - refine (proj2 (run_invariant cfg (ready_and_quiet cfg)
                     (returns (fun r' => r' = READY))
                     (fun e => no_term e /\ no_stale e)
                     (step_ready_and_quiet cfg) tr2 _ _ o3 _
                     (Forall_and Hnt Hns2) Er)).
    apply ready_is_quiet.
    + eapply init_one_in_flight; eauto.
    + simpl. eapply init_ready_state; eauto.
  - pose proof (init_failed_state _ _ _ _ _ Hi) as Hfs.
    refine (proj2 (run_invariant cfg (fun w => failed_state cfg (gpu w))
                     (returns (fun r' => r' = FAILED)) no_term
                     (step_failed cfg) tr2 _ _ o3 _ Hnt Er)).
    exact Hfs.
Qed.

(** Once a failure has been delivered the flag is set, and it stays set
    until the next [term()]. *)
Lemma run_failure_sets_flag cfg tr : forall w w' os,
  wg_support cfg = true ->
  Forall no_term tr ->
  Exists delivers_failure tr ->
  run cfg tr w = Some (w', os) ->
  failed_state cfg (gpu w').
Proof.
  induction tr as [|e tr IH]; intros w w' os Hwg Hnt Hex Hrun.
  - inversion Hex.
  - simpl in Hrun. inversion Hnt as [|? ? He Htr]; subst.
    destruct (step cfg w e) as [[w1 o1]|] eqn:Es; [|discriminate].
    destruct (run cfg tr w1) as [[w2 o2]|] eqn:Er; [|discriminate].
    inversion Hrun; subst.
    inversion Hex as [? ? Hf | ? ? Hf]; subst.
    + assert (H1 : failed_state cfg (gpu w1)).
      { unfold delivers_failure in Hf.
        destruct e as [c| |r st [|] h]; try discriminate Hf.
        unfold failed_state.
        destruct r, st; simpl in Es;
          match type of Es with
          | match ?n with _ => _ end = _ => destruct n; [discriminate|]
          end;
          inversion Es; subst; simpl; auto. }
      exact (proj1 (run_invariant cfg (fun w => failed_state cfg (gpu w))
                      (fun _ => True) no_term
                      (fun w0 e0 w0' os0 Hw0 He0 Hs0 =>
                         conj (proj1 (step_failed cfg w0 e0 w0' os0
                                        Hw0 He0 Hs0))
                              (proj2 (Forall_forall (fun _ => True) os0)
                                     (fun _ _ => I)))
                      tr w1 _ o2 H1 Htr Er)).
    + exact (IH _ _ _ Hwg Htr Hf Er).
Qed.

(** C2 (amended).  Once [init()] has returned 0 (Ready) or 1 (Failed),
    every later [init()] with no [term()] in between returns 0 or 1,
    never 2 (Pending), whatever completion callbacks run in between;
    after 1 it returns 1; after 0 it returns 0 as long as no completion
    callback delivered in between reports a failure, and, with the GPU
    backend compiled in, it returns 1 after such a failure.  The first
    conjunct speaks of the [init()] calls inside the run, the second of
    an [init()] called after it; every later call is one after a run. *)
Theorem init_terminal_sticky cfg c g r g' cs tr w w' os :
  init cfg c g = (r, g', cs) ->
  terminal r ->
  gpu w = g' ->
  Forall wf_event tr ->
  Forall no_term tr ->
  run cfg tr w = Some (w', os) ->
  Forall (returns (fun r' =>
            (terminal r' /\ r' <> PENDING) /\
            (r = FAILED -> r' = FAILED) /\
            (Forall no_failure tr -> r' = r))) os /\
  (forall c' r' g'' cs',
      init cfg c' (gpu w') = (r', g'', cs') ->
      (terminal r' /\ r' <> PENDING) /\
      (r = FAILED -> r' = FAILED) /\
      (Forall no_failure tr -> r' = r) /\
      (wg_support cfg = true -> Exists delivers_failure tr ->
       r' = FAILED)).
Proof.
  intros Hi Hr Hw Hwf Hnt Hrun. subst g'.
  pose proof (init_terminal_settled _ _ _ _ _ _ Hi Hr) as Hs.
  destruct (run_invariant cfg (fun w => settled cfg (gpu w))
              (returns terminal) (fun e => wf_event e /\ no_term e)
              (step_settled cfg) tr w w' os Hs (Forall_and Hwf Hnt) Hrun)
    as [Hs' Hterm].
  assert (Hfail : r = FAILED ->
                  failed_state cfg (gpu w') /\
                  Forall (returns (fun r' => r' = FAILED)) os).
  { intros ->. apply init_failed_state in Hi.
    exact (run_invariant cfg (fun w => failed_state cfg (gpu w))
             (returns (fun r' => r' = FAILED)) no_term
             (step_failed cfg) tr w w' os Hi Hnt Hrun). }
  assert (Hsame : Forall no_failure tr ->
                  (r = READY -> ready_state cfg (gpu w')) /\
                  Forall (returns (fun r' => r' = r)) os).
  { intros Hnf. destruct Hr as [-> | ->].
    - apply init_ready_state in Hi.
      destruct (run_invariant cfg (fun w => ready_state cfg (gpu w))
                  (returns (fun r' => r' = READY))
                  (fun e => wf_event e /\ no_term e /\ no_failure e)
                  (step_ready cfg) tr w w' os Hi
                  (Forall_and Hwf (Forall_and Hnt Hnf)) Hrun)
        as [Hrs Hro].
      split; [intros _; exact Hrs | exact Hro].
    - split; [intros Hc; discriminate Hc | apply Hfail; reflexivity]. }
  split.
  - apply Forall_forall. intros o Ho.
    rewrite Forall_forall in Hterm. specialize (Hterm o Ho).
    destruct o as [c0 | r']; simpl in *; [exact I|].
    repeat split.
    + exact Hterm.
    + destruct Hterm as [-> | ->]; discriminate.
    + intros Hf. destruct (Hfail Hf) as [_ Hall].
      rewrite Forall_forall in Hall. exact (Hall _ Ho).
    + intros Hnf. destruct (Hsame Hnf) as [_ Hall].
      rewrite Forall_forall in Hall. exact (Hall _ Ho).
  - intros c' r' g'' cs' Hi'.
    destruct (init_when_settled _ _ _ _ _ _ Hs' Hi') as [Ht' _].
    repeat split.
    + exact Ht'.
    + destruct Ht' as [-> | ->]; discriminate.
    + intros Hf. destruct (Hfail Hf) as [Hfs _].
      exact (proj1 (init_when_failed _ _ _ _ _ _ Hfs Hi')).
    + intros Hnf. destruct (Hsame Hnf) as [Hrs _].
      destruct Hr as [-> | ->].
      * exact (proj1 (init_when_ready _ _ _ _ _ _ (Hrs eq_refl) Hi')).
      * destruct (Hfail eq_refl) as [Hfs _].
        exact (proj1 (init_when_failed _ _ _ _ _ _ Hfs Hi')).
    + intros Hwg Hex.
      pose proof (run_failure_sets_flag cfg tr w w' os Hwg Hnt Hex Hrun)
        as Hfs.
      exact (proj1 (init_when_failed _ _ _ _ _ _ Hfs Hi')).
Qed.

Lemma init_terminal_sticky_witness :
  fst (fst (init full_build 1 (mkState 1 2 3 true true true))) = FAILED /\
  fst (fst (init full_build 1 (mkState 1 2 3 true true true))) <> PENDING.
Proof.
  destruct (init full_build 1 (mkState 1 2 3 true true true))
    as [[r' g''] cs'] eqn:Ei.
  assert (Hrun : run full_build [Completion AdapterRequest true false 0]
                     (mkWorld (mkState 1 2 3 true true false) 0 0 1 0)
                 = Some (mkWorld (mkState 1 2 3 true true true) 0 0 0 0, []))
    by reflexivity.
  assert (Hinit : init full_build 1 (mkState 1 2 3 true true false)
                  = (READY, mkState 1 2 3 true true false, []))
    by reflexivity.
  assert (Hwf : Forall wf_event [Completion AdapterRequest true false 0])
    by (repeat constructor; simpl; intros; discriminate).
  assert (Hnt : Forall no_term [Completion AdapterRequest true false 0])
    by (repeat constructor).
  destruct (init_terminal_sticky full_build 1
              (mkState 1 2 3 true true false) READY
              (mkState 1 2 3 true true false) []
              [Completion AdapterRequest true false 0]
              (mkWorld (mkState 1 2 3 true true false) 0 0 1 0)
              (mkWorld (mkState 1 2 3 true true true) 0 0 0 0) []
              Hinit (or_introl eq_refl) eq_refl Hwf Hnt Hrun)
    as [_ Hnext].
  destruct (Hnext 1 r' g'' cs' Ei) as ((_ & Hnp) & _ & _ & Hfail).
  simpl. split; [|exact Hnp].
  apply Hfail; [reflexivity|].
  constructor. reflexivity.
Defined.

(** C3.  With the GPU backend compiled in, after any call to [term()]
    the globals equal the fresh initial state: the three handles are
    null and the three flags false.  Called on the fresh state it
    releases nothing and leaves that state, and a second call in a row
    releases nothing and leaves that state too. *)
Theorem term_resets cfg g :
  wg_support cfg = true ->
  fst (term cfg g) = fresh /\
  fresh = mkState null null null false false false /\
  term cfg fresh = (fresh, []) /\
  term cfg (fst (term cfg g)) = (fresh, []).
Proof.
  intros Hwg. unfold term. rewrite Hwg. simpl. repeat split; reflexivity.
Qed.

Lemma term_resets_witness :
  fst (term full_build (mkState 1 2 3 true true true)) = fresh /\
  fresh = mkState null null null false false false /\
  term full_build fresh = (fresh, []) /\
  term full_build (fst (term full_build (mkState 1 2 3 true true true)))
    = (fresh, []).
Proof.
  apply (term_resets full_build (mkState 1 2 3 true true true)).
  reflexivity.
Defined.

End WebGPU_theory.

(** ** The render-target manager *)

Section Engine_theory.
Import Engine.

Ltac branches :=
  repeat match goal with
         | |- context [if ?b then _ else _] =>
             let E := fresh "E" in destruct b eqn:E; simpl
         end.

Ltac branches_in H :=
  repeat match type of H with
         | context [if ?b then _ else _] =>
             let E := fresh "E" in destruct b eqn:E; simpl in H
         end.

(** A successful [createCanvas] for "sw" on a fresh manager leaves a
    software target of the requested size. *)
Lemma createCanvas_sw_success cfg env g sel w h hd m cs :
  sw_support cfg = true ->
  createCanvas cfg env g "sw" sel w h new_engine = (hd, m, cs) ->
  hd <> 0 ->
  canvas m = hd /\ buffer m <> null /\ engine_type m = "sw"%string /\
  width m = w /\ height m = h.
Proof.
  intros Hsw H Hhd. unfold createCanvas in H. rewrite Hsw in H.
  simpl in H. branches_in H; inversion H; subst; simpl in *;
    try congruence.
  apply is_null_false in E1. auto.
Qed.

Example createCanvas_sw_800_600 :
  createCanvas full_build plentiful WebGPU.fresh "sw" "#canvas" 800 600
    new_engine
  = (100, sw_800_600,
     [Initializer_init; Text_load; SwCanvas_gen; malloc 1920000;
      SwCanvas_target 100 4096 800 800 600]).
Proof. reflexivity. Qed.

(** C4, as stated, fails: a software target of 800 by 600 whose
    [resize(1024, 768)] runs out of memory reports 1024 by 768
    afterwards. *)
Lemma failed_resize_changes_size :
  ~ (forall cfg env g m w h m' cs,
        sw_support cfg = true ->
        canvas m <> null -> buffer m <> null ->
        engine_type m = "sw"%string ->
        (w, h) <> (width m, height m) ->
        oom env w h ->
        resize cfg env g w h m = (false, m', cs) ->
        width m' = width m /\ height m' = height m).
Proof.
  intros H.
  destruct (H full_build exhausted WebGPU.fresh sw_800_600 1024 768
              (mkEngine 100 null 1024 768 "sw" null 0)
              [Canvas_sync 100; free 4096; malloc 3145728])
    as [Hw _]; try reflexivity; try discriminate.
Qed.

(** C4 (amended).  For every manager holding a software-backend target,
    if [resize(w, h)] with [(w, h)] different from the recorded
    dimensions meets a pixel-buffer reallocation that returns null, then
    [resize] returns false, the old buffer has been freed and the
    buffer pointer is null, the canvas is kept, and the recorded width
    and height are the requested [w] and [h]: they are assigned before
    the reallocation is attempted. *)
Theorem resize_failure_records_request cfg env g m w h :
  sw_support cfg = true ->
  canvas m <> null ->
  engine_type m = "sw"%string ->
  (w, h) <> (width m, height m) ->
  oom env w h ->
  resize cfg env g w h m =
    (false, set_buffer null (set_height h (set_width w m)),
     [Canvas_sync (canvas m); free (buffer m); malloc (buffer_bytes w h)]) /\
  size (snd (fst (resize cfg env g w h m))) = size_object w h /\
  render (snd (fst (resize cfg env g w h m))) = undefined.
Proof.
  intros Hsw Hc He Hd Hoom.
  assert (Hr : resize cfg env g w h m =
    (false, set_buffer null (set_height h (set_width w m)),
     [Canvas_sync (canvas m); free (buffer m); malloc (buffer_bytes w h)])).
  { unfold resize. apply is_null_false in Hc. rewrite Hc.
    destruct ((width m =? w) && (height m =? h)) eqn:Esame.
    - apply andb_true_iff in Esame. destruct Esame as [E1 E2].
      apply Z.eqb_eq in E1, E2. subst. contradiction Hd. reflexivity.
    - simpl. rewrite He, Hsw. simpl. unfold oom in Hoom. rewrite Hoom.
      reflexivity. }
  rewrite Hr. repeat split; reflexivity.
Qed.

Lemma resize_failure_records_request_witness :
  resize full_build exhausted WebGPU.fresh 1024 768 sw_800_600 =
    (false, set_buffer null (set_height 768 (set_width 1024 sw_800_600)),
     [Canvas_sync (canvas sw_800_600); free (buffer sw_800_600);
      malloc (buffer_bytes 1024 768)]) /\
  size (snd (fst (resize full_build exhausted WebGPU.fresh 1024 768
                    sw_800_600))) = size_object 1024 768 /\
  render (snd (fst (resize full_build exhausted WebGPU.fresh 1024 768
                      sw_800_600))) = undefined.
Proof.
  apply (resize_failure_records_request full_build exhausted WebGPU.fresh
           sw_800_600 1024 768).
  - reflexivity.
  - discriminate.
  - reflexivity.
  - discriminate.
  - reflexivity.
Defined.

(** C5.  For backend "sw" (compiled in, engine set-up succeeding): if
    the canvas object is created but the allocation of the
    [width*height*4]-byte pixel buffer fails, [createCanvas] deletes the
    canvas, resets it to null and returns 0, leaving the manager with no
    canvas and no buffer; if the canvas allocation itself fails, it
    returns 0 without calling the allocator, the manager having no
    canvas and its buffer pointer untouched. *)
Theorem createCanvas_sw_allocation_failure cfg env g sel w h m :
  sw_support cfg = true ->
  engine_init_success env = true ->
  (sw_canvas env <> null -> oom env w h ->
   exists m',
     createCanvas cfg env g "sw" sel w h m =
       (0, m', [Initializer_init; Text_load; SwCanvas_gen;
                malloc (buffer_bytes w h); delete_canvas (sw_canvas env)]) /\
     canvas m' = null /\ buffer m' = null) /\
  (sw_canvas env = null ->
   exists m',
     createCanvas cfg env g "sw" sel w h m =
       (0, m', [Initializer_init; Text_load; SwCanvas_gen]) /\
     canvas m' = null /\ buffer m' = buffer m).
Proof.
  intros Hsw Hinit. split.
  - intros Hc Hoom. apply is_null_false in Hc. unfold oom in Hoom.
    unfold createCanvas. rewrite Hinit, Hsw. simpl.
    rewrite Hc, Hoom. simpl.
    eexists. split; [reflexivity|]. split; reflexivity.
  - intros Hc. unfold createCanvas. rewrite Hinit, Hsw. simpl.
    rewrite Hc. simpl.
    eexists. split; [reflexivity|]. split; reflexivity.
Qed.

Lemma createCanvas_sw_allocation_failure_witness :
  (sw_canvas exhausted <> null -> oom exhausted 800 600 ->
   exists m',
     createCanvas full_build exhausted WebGPU.fresh "sw" "#canvas" 800 600
       new_engine =
       (0, m', [Initializer_init; Text_load; SwCanvas_gen;
                malloc (buffer_bytes 800 600);
                delete_canvas (sw_canvas exhausted)]) /\
     canvas m' = null /\ buffer m' = null) /\
  (sw_canvas exhausted = null ->
   exists m',
     createCanvas full_build exhausted WebGPU.fresh "sw" "#canvas" 800 600
       new_engine =
       (0, m', [Initializer_init; Text_load; SwCanvas_gen]) /\
     canvas m' = null /\ buffer m' = buffer new_engine).
Proof.
  apply (createCanvas_sw_allocation_failure full_build exhausted
           WebGPU.fresh "#canvas" 800 600 new_engine).
  - reflexivity.
  - reflexivity.
Defined.

(** C6, as stated, fails: the software target of 65536 by 16384 pixels
    that [createCanvas] leaves when its allocations succeed has a
    non-null buffer and the tag "sw", and [render()] returns a view of
    0 bytes, not of 65536*16384*4 = 2^32 bytes: the product wraps. *)
Lemma render_view_wraps :
  snd (fst (createCanvas full_build plentiful WebGPU.fresh "sw" "#canvas"
              65536 16384 new_engine)) = sw_65536_16384 /\
  engine_type sw_65536_16384 = "sw"%string /\
  buffer sw_65536_16384 <> null /\
  render sw_65536_16384 = typed_memory_view 0 4096 /\
  render sw_65536_16384 <>
    typed_memory_view (width sw_65536_16384 * height sw_65536_16384 * 4)
                      (buffer sw_65536_16384).
Proof.
  repeat split; try reflexivity; discriminate.
Qed.

(** C6 (amended).  [render()] returns a typed memory view exactly when
    the recorded backend tag is "sw" and the buffer pointer is non-null;
    the view is over the buffer and its length is [width*height*4]
    evaluated in the source's 32-bit unsigned arithmetic, that is modulo
    2^32, which is exactly [width*height*4] bytes whenever that product
    is below 2^32.  In every other case, among them a manager on which
    no target was created, it returns [undefined]. *)
Theorem render_view_iff m :
  ((exists n p, render m = typed_memory_view n p) <->
   (engine_type m = "sw"%string /\ buffer m <> null)) /\
  (forall n p, render m = typed_memory_view n p ->
     p = buffer m /\ n = buffer_bytes (width m) (height m) /\
     (0 <= width m * height m * 4 < 2 ^ 32 ->
      n = width m * height m * 4)) /\
  (~ (engine_type m = "sw"%string /\ buffer m <> null) ->
   render m = undefined) /\
  render new_engine = undefined.
Proof.
  assert (Hcase :
    (engine_type m = "sw"%string /\ buffer m <> null /\
     render m = typed_memory_view (buffer_bytes (width m) (height m))
                                  (buffer m)) \/
    (~ (engine_type m = "sw"%string /\ buffer m <> null) /\
     render m = undefined)).
  { unfold render.
    destruct (is_null (buffer m)) eqn:Eb;
      destruct (engine_type m =? "sw")%string eqn:Ee; simpl.
    - right. apply is_null_true in Eb. tauto.
    - right. apply is_null_true in Eb. tauto.
    - left. apply is_null_false in Eb. apply String.eqb_eq in Ee. auto.
    - right. apply String.eqb_neq in Ee. tauto. }
  split; [|split; [|split]].
  - destruct Hcase as [(He & Hb & Hv) | (Hn & Hv)].
    + split; [auto | eauto].
    + split; [|tauto]. intros (n & p & Hv'). congruence.
  - intros n p Hv'.
    destruct Hcase as [(He & Hb & Hv) | (Hn & Hv)]; [|congruence].
    rewrite Hv in Hv'. inversion Hv'; subst.
    repeat split. intros Hfit.
    unfold buffer_bytes, u32_mul, u32.
    rewrite Z.mul_mod_idemp_l by (apply Z.pow_nonzero; lia).
    apply Z.mod_small. exact Hfit.
  - intros Hn. destruct Hcase as [(He & Hb & Hv) | (_ & Hv)]; tauto.
  - reflexivity.
Qed.

(** C7.  On a manager with a created target, [resize(w, h)] with the
    recorded dimensions returns true and does nothing: the object,
    with its buffer pointer, canvas handle, width and height, is the
    same afterwards, and no call (no free, no allocation) is made. *)
Theorem resize_same_dimensions cfg env g m :
  canvas m <> null ->
  resize cfg env g (width m) (height m) m = (true, m, []).
Proof.
  intros Hc. unfold resize. apply is_null_false in Hc. rewrite Hc.
  rewrite !Z.eqb_refl. reflexivity.
Qed.

Lemma resize_same_dimensions_witness :
  resize full_build exhausted WebGPU.fresh 800 600 sw_800_600
  = (true, sw_800_600, []).
Proof.
  apply (resize_same_dimensions full_build exhausted WebGPU.fresh sw_800_600).
  discriminate.
Defined.

(** C8.  [clear()] returns false exactly when the canvas is null; with
    a target it returns true; in both cases the object, hence the width
    and height that [size()] reports and the buffer pointer, is
    unchanged. *)
Theorem clear_spec m :
  (fst (fst (clear m)) = false <-> canvas m = null) /\
  (canvas m <> null -> fst (fst (clear m)) = true) /\
  snd (fst (clear m)) = m /\
  size (snd (fst (clear m))) = size m /\
  buffer (snd (fst (clear m))) = buffer m.
Proof.
  unfold clear. destruct (is_null (canvas m)) eqn:Ec; simpl.
  - apply is_null_true in Ec. repeat split; auto; congruence.
  - apply is_null_false in Ec. repeat split; auto; congruence.
Qed.

(** C9.  For every backend string that the build does not answer to
    (one outside "sw", "gl", "wg", or one naming a backend that is not
    compiled in), [createCanvas] on a manager holding no target resource
    returns 0, makes no call that obtains a canvas, a pixel buffer, a GL
    context or a GPU surface, and leaves all four null. *)
Theorem createCanvas_unknown_backend cfg env g engine sel w h m :
  backend_available cfg engine = false ->
  no_resources m ->
  fst (fst (createCanvas cfg env g engine sel w h m)) = 0 /\
  no_resources (snd (fst (createCanvas cfg env g engine sel w h m))) /\
  forallb (fun c => negb (acquires c))
          (snd (createCanvas cfg env g engine sel w h m)) = true.
Proof.
  unfold backend_available, no_resources.
  intros Hb (Hc & Hbuf & Hgl & Hs).
  unfold createCanvas.
  destruct (engine_init_success env); simpl;
    [|repeat split; assumption].
  destruct (sw_support cfg), (gl_support cfg), (wg_support cfg),
    (engine =? "sw")%string, (engine =? "gl")%string,
    (engine =? "wg")%string; simpl in *; try discriminate Hb;
    repeat split; assumption.
Qed.

Lemma createCanvas_unknown_backend_witness :
  fst (fst (createCanvas sw_only_build plentiful WebGPU.fresh "xyz" "#canvas"
              800 600 new_engine)) = 0 /\
  no_resources (snd (fst (createCanvas sw_only_build plentiful WebGPU.fresh
                            "xyz" "#canvas" 800 600 new_engine))) /\
  forallb (fun c => negb (acquires c))
          (snd (createCanvas sw_only_build plentiful WebGPU.fresh "xyz"
                  "#canvas" 800 600 new_engine)) = true.
Proof.
  apply (createCanvas_unknown_backend sw_only_build plentiful WebGPU.fresh
           "xyz" "#canvas" 800 600 new_engine).
  - reflexivity.
  - repeat split; reflexivity.
Defined.

(** On a manager that already holds a canvas, an unknown backend name
    makes [createCanvas] return that canvas. *)
Remark unknown_backend_keeps_canvas :
  fst (fst (createCanvas full_build plentiful WebGPU.fresh "xyz" "#canvas"
              10 10 sw_800_600)) = 100.
Proof. reflexivity. Qed.

(** C10.  [createCanvas] assigns the requested backend string, width
    and height first; whatever it returns, a failure with handle 0
    included, [getEngineType()] then gives the requested string and
    [size()] the requested width and height. *)
Theorem createCanvas_records_request cfg env g engine sel w h m :
  getEngineType (snd (fst (createCanvas cfg env g engine sel w h m)))
    = engine /\
  size (snd (fst (createCanvas cfg env g engine sel w h m)))
    = size_object w h.
Proof.
  unfold createCanvas, getEngineType, size.
  branches; split; reflexivity.
Qed.

(** The three failures of [createCanvas] on a manager that held an 800
    by 600 software target: engine set-up failure, unknown backend name
    on a fresh manager, allocation failure. *)
Example createCanvas_failures_record_request :
  let failing := mkOracle false 100 200 300 (fun _ => 4096)
                          (fun _ => 7) (fun _ _ => 9) in
  let m1 := snd (fst (createCanvas full_build failing WebGPU.fresh
                        "gl" "#canvas" 320 200 sw_800_600)) in
  let m2 := snd (fst (createCanvas full_build plentiful WebGPU.fresh
                        "xyz" "#canvas" 320 200 new_engine)) in
  let m3 := snd (fst (createCanvas full_build exhausted WebGPU.fresh
                        "sw" "#canvas" 320 200 new_engine)) in
  (getEngineType m1, size m1) = ("gl"%string, size_object 320 200) /\
  (getEngineType m2, size m2) = ("xyz"%string, size_object 320 200) /\
  (getEngineType m3, size m3) = ("sw"%string, size_object 320 200).
Proof. repeat split; reflexivity. Qed.

End Engine_theory.

(** ** More on the polling loop *)

Section Polling_theory.
Import WebGPU Polling.

Ltac paths H :=
  unfold init in H;
  repeat match type of H with
         | context [if ?b then _ else _] =>
             let E := fresh "E" in destruct b eqn:E; simpl in H
         end;
  inversion H; subst; clear H; simpl in *.

Ltac handles :=
  repeat match goal with
         | E : is_null _ = true |- _ => apply is_null_true in E
         | E : is_null _ = false |- _ => apply is_null_false in E
         end.

Ltac rc := unfold READY, FAILED, PENDING in *.

(** The return code of [init] is a function of the failure flag and of
    the adapter and device handles it finds: 1 exactly when the flag is
    set; 0 exactly when the flag is clear and both handles are non-null
    (or the build has no GPU backend); 2 exactly when the flag is clear
    and one of the two handles is null. *)
Theorem init_result_from_state cfg c g :
  (fst (fst (init cfg c g)) = FAILED <->
   wg_support cfg = true /\ initializationFailed g = true) /\
  (fst (fst (init cfg c g)) = READY <->
   wg_support cfg = false \/
   (initializationFailed g = false /\ adapter g <> null /\
    device g <> null)) /\
  (fst (fst (init cfg c g)) = PENDING <->
   wg_support cfg = true /\ initializationFailed g = false /\
   (adapter g = null \/ device g = null)).
Proof.
  destruct (init cfg c g) as [[r g'] cs] eqn:H. simpl.
  paths H; handles; rc;
    repeat split; intros; try discriminate; try reflexivity;
    intuition (try congruence; try discriminate).
Qed.

Lemma init_ready_nonnull cfg c g g' cs :
  wg_support cfg = true -> c <> null ->
  init cfg c g = (READY, g', cs) ->
  instance g' <> null /\ adapter g' <> null /\ device g' <> null /\
  initializationFailed g' = false /\
  count_adapter_requests cs = O /\ count_device_requests cs = O.
Proof.
  intros Hwg Hc H. paths H; handles; rc; try discriminate;
    repeat split; auto; congruence.
Qed.

(** With the GPU backend compiled in and [wgpuCreateInstance] answering
    a real instance, an [init()] that returns 0 leaves all three handles
    non-null and the failure flag clear, and has issued no request. *)
Theorem init_ready_means_usable cfg c g g' cs :
  wg_support cfg = true -> c <> null ->
  init cfg c g = (READY, g', cs) ->
  instance g' <> null /\ adapter g' <> null /\ device g' <> null /\
  initializationFailed g' = false /\
  count_adapter_requests cs = O /\ count_device_requests cs = O.
Proof. apply init_ready_nonnull. Qed.

Lemma init_ready_means_usable_witness :
  instance (mkState 1 2 3 true true false) <> null /\
  adapter (mkState 1 2 3 true true false) <> null /\
  device (mkState 1 2 3 true true false) <> null /\
  initializationFailed (mkState 1 2 3 true true false) = false /\
  count_adapter_requests [] = O /\ count_device_requests [] = O.
Proof.
  apply (init_ready_means_usable full_build 1
           (mkState 1 2 3 true true false)).
  - reflexivity.
  - discriminate.
  - reflexivity.
Defined.

(** Polling again at once changes nothing: a second [init()] right
    after a first one returns the same code, makes no runtime call and
    leaves the globals as the first call left them. *)
Theorem init_twice cfg c1 c2 g r g1 cs :
  c1 <> null ->
  init cfg c1 g = (r, g1, cs) ->
  init cfg c2 g1 = (r, g1, []).
Proof.
  intros Hc H. apply is_null_false in Hc.
  paths H; unfold init; simpl;
    repeat match goal with
           | E : ?x = _ |- context [if ?x then _ else _] => rewrite E; simpl
           end; reflexivity.
Qed.

Lemma init_twice_witness :
  init full_build 5 (mkState 1 null null true false false)
  = (PENDING, mkState 1 null null true false false, []).
Proof.
  apply (init_twice full_build 1 5 fresh PENDING
           (mkState 1 null null true false false)
           [wgpuCreateInstance; wgpuInstanceRequestAdapter 1]).
  - discriminate.
  - reflexivity.
Defined.

Lemma adapter_requests_app o1 o2 :
  adapter_requests (o1 ++ o2) = (adapter_requests o1 + adapter_requests o2)%nat.
Proof. unfold adapter_requests. rewrite filter_app, length_app. reflexivity. Qed.

Lemma device_requests_app o1 o2 :
  device_requests (o1 ++ o2) = (device_requests o1 + device_requests o2)%nat.
Proof. unfold device_requests. rewrite filter_app, length_app. reflexivity. Qed.

Lemma adapter_requests_init cs r :
  adapter_requests (map Called cs ++ [InitReturned r])
  = count_adapter_requests cs.
Proof.
  rewrite adapter_requests_app. unfold adapter_requests, count_adapter_requests.
  simpl. rewrite Nat.add_0_r.
  induction cs as [|c cs IH]; simpl; [reflexivity|].
  destruct c; simpl; rewrite ?IH; reflexivity.
Qed.

Lemma device_requests_init cs r :
  device_requests (map Called cs ++ [InitReturned r])
  = count_device_requests cs.
Proof.
  rewrite device_requests_app. unfold device_requests, count_device_requests.
  simpl. rewrite Nat.add_0_r.
  induction cs as [|c cs IH]; simpl; [reflexivity|].
  destruct c; simpl; rewrite ?IH; reflexivity.
Qed.

Lemma init_spends_budget cfg c g r g' cs :
  init cfg c g = (r, g', cs) ->
  (count_adapter_requests cs + adapter_budget g' <= adapter_budget g)%nat /\
  (count_device_requests cs + device_budget g' <= device_budget g)%nat.
Proof.
  intros H. unfold adapter_budget, device_budget.
  paths H; unfold count_adapter_requests, count_device_requests; simpl;
    repeat match goal with
           | E : ?x = _ |- context [if ?x then _ else _] => rewrite E
           end;
    split; try lia;
    destruct (adapterRequested g), (deviceRequested g); simpl; lia.
Qed.

Lemma step_spends_budget cfg w e w' os :
  no_term e -> step cfg w e = Some (w', os) ->
  (adapter_requests os + adapter_budget (gpu w') <= adapter_budget (gpu w))%nat
  /\
  (device_requests os + device_budget (gpu w') <= device_budget (gpu w))%nat.
Proof.
  intros Ht H.
  destruct (step_cases _ _ _ _ _ H)
    as [(c & r & g & cs & -> & Ei & Hg & -> & _)
       |[(-> & _)
        |[(st & ok & a & -> & -> & Hg & _)|(st & ok & d & -> & -> & Hg & _)]]].
  - rewrite adapter_requests_init, device_requests_init, Hg.
    eapply init_spends_budget; eauto.
  - discriminate Ht.
  - rewrite Hg. unfold onAdapterRequestEnded, adapter_budget, device_budget.
    destruct ok; simpl; split; lia.
  - rewrite Hg. unfold onDeviceRequestEnded, adapter_budget, device_budget.
    destruct ok; simpl; split; lia.
Qed.

(** No re-request: between two [term()] calls [init] issues at most one
    adapter request and at most one device request, however often it is
    called and whatever completions are delivered; and none of a kind
    whose flag is already set. *)
Theorem at_most_one_request_per_cycle cfg tr w w' os :
  Forall no_term tr ->
  run cfg tr w = Some (w', os) ->
  (adapter_requests os <= adapter_budget (gpu w) <= 1)%nat /\
  (device_requests os <= device_budget (gpu w) <= 1)%nat.
Proof.
  intros Hnt Hrun.
  assert (Hsum :
    (adapter_requests os + adapter_budget (gpu w') <= adapter_budget (gpu w))%nat
    /\
    (device_requests os + device_budget (gpu w') <= device_budget (gpu w))%nat).
  { revert w w' os Hrun. induction Hnt as [|e tr He Htr IH];
      intros w w' os Hrun; simpl in Hrun.
    - inversion Hrun; subst. simpl. unfold adapter_requests, device_requests.
      simpl. lia.
    - destruct (step cfg w e) as [[w1 o1]|] eqn:Es; [|discriminate].
      destruct (run cfg tr w1) as [[w2 o2]|] eqn:Er; [|discriminate].
      inversion Hrun; subst.
      destruct (step_spends_budget _ _ _ _ _ He Es) as [Ha Hd].
      destruct (IH _ _ _ Er) as [Ha' Hd'].
      rewrite adapter_requests_app, device_requests_app. lia. }
  unfold adapter_budget, device_budget in *.
  destruct (adapterRequested (gpu w)), (deviceRequested (gpu w)); lia.
Qed.

Lemma at_most_one_request_per_cycle_witness :
  let os := [Called wgpuCreateInstance; Called (wgpuInstanceRequestAdapter 1);
             InitReturned PENDING; InitReturned PENDING;
             Called (wgpuAdapterRequestDevice 2); InitReturned PENDING] in
  (adapter_requests os <= adapter_budget (gpu boot) <= 1)%nat /\
  (device_requests os <= device_budget (gpu boot) <= 1)%nat.
Proof.
  apply (at_most_one_request_per_cycle full_build
           [CallInit 1; CallInit 1; Completion AdapterRequest false true 2;
            CallInit 1]
           boot
           (mkWorld (mkState 1 2 null true true false) 0 1 0 0)).
  - repeat constructor.
  - reflexivity.
Defined.

(** Invariant of [flags_track]. *)
Lemma step_flags_track cfg w e w' os :
  flags_track w -> no_stale e -> step cfg w e = Some (w', os) ->
  flags_track w' /\ Forall (fun _ => True) os.
Proof.
  intros Hw Hs H. split; [|apply Forall_forall; auto].
  destruct (step_cases _ _ _ _ _ H)
    as [(c & r & g & cs & -> & Ei & Hg & _ & Hla & Hld)
       |[(-> & Hg & _ & Hla & Hld)
        |[(st & ok & a & -> & _ & Hg & Hl)|(st & ok & d & -> & _ & Hg & Hl)]]].
  - unfold flags_track in *. rewrite Hg, Hla, Hld.
    destruct Hw as (H1 & H2 & H3 & H4). clear Hg Hla Hld H.
    paths Ei; handles; unfold count_adapter_requests, count_device_requests;
      simpl; rewrite ?Nat.add_0_r; intuition (try congruence).
  - unfold flags_track. rewrite Hg, Hla, Hld.
    destruct Hw as (H1 & H2 & H3 & H4).
    unfold term. destruct (wg_support cfg); simpl; repeat split; intros;
      auto; congruence.
  - destruct st; [discriminate|]. destruct (Hl eq_refl) as [Hl1 Hl2].
    destruct Hw as (H1 & H2 & H3 & H4).
    assert (Hreq : adapterRequested (gpu w) = true)
      by (apply H3; rewrite Hl1; discriminate).
    unfold flags_track. rewrite Hg, Hl2.
    unfold onAdapterRequestEnded. destruct ok; simpl; repeat split; auto.
  - destruct st; [discriminate|]. destruct (Hl eq_refl) as [Hl1 Hl2].
    destruct Hw as (H1 & H2 & H3 & H4).
    assert (Hreq : deviceRequested (gpu w) = true)
      by (apply H4; rewrite Hl1; discriminate).
    unfold flags_track. rewrite Hg, Hl2.
    unfold onDeviceRequestEnded. destruct ok; simpl; repeat split; auto.
Qed.

(** On runs from start-up in which no stale completion is delivered, a
    handle is non-null only after its request was issued in the current
    cycle: a non-null adapter implies [adapterRequested], a non-null
    device implies [deviceRequested].  So an [init()] that returns 0
    there finds both flags set: 0 is only reported through the test of
    [deviceRequested] (line 99), never by the last [return 0]. *)
Theorem handles_follow_requests cfg tr w os :
  Forall no_stale tr ->
  run cfg tr boot = Some (w, os) ->
  (adapter (gpu w) <> null -> adapterRequested (gpu w) = true) /\
  (device (gpu w) <> null -> deviceRequested (gpu w) = true) /\
  (wg_support cfg = true ->
   forall c g' cs, init cfg c (gpu w) = (READY, g', cs) ->
     adapterRequested (gpu w) = true /\ deviceRequested (gpu w) = true /\
     g' = (if is_null (instance (gpu w)) then set_instance c (gpu w)
           else gpu w)).
Proof.
  intros Hns Hrun.
  assert (Hb : flags_track boot)
    by (unfold flags_track; simpl; repeat split; intros; congruence).
  destruct (run_invariant cfg flags_track (fun _ => True) no_stale
              (step_flags_track cfg) tr boot w os Hb Hns Hrun)
    as [(H1 & H2 & _ & _) _].
  repeat split; auto;
    paths H0; handles; rc; try discriminate; auto; congruence.
Qed.

Lemma handles_follow_requests_witness :
  adapterRequested (gpu ready_end) = true /\
  deviceRequested (gpu ready_end) = true /\
  init full_build 1 (gpu ready_end) = (READY, gpu ready_end, []).
Proof.
  assert (Hns : Forall no_stale ready_trace) by (repeat constructor).
  assert (Hrun : run full_build ready_trace boot = Some (ready_end, ready_obs))
    by reflexivity.
  destruct (handles_follow_requests full_build ready_trace ready_end
              ready_obs Hns Hrun) as (Ha & Hd & Hi).
  assert (Hinit : init full_build 1 (gpu ready_end)
                  = (READY, gpu ready_end, [])) by reflexivity.
  destruct (Hi eq_refl 1 (gpu ready_end) [] Hinit) as (Har & Hdr & _).
  split; [apply Ha; discriminate|].
  split; [apply Hd; discriminate | exact Hinit].
Defined.

(** Recovery and acquisition: from any state (a failed one, too),
    [term()] followed by three polls, with the adapter and the device
    delivered in between, returns 2, 2 and then 0, leaves the delivered
    handles in the globals, issues each request once and leaves nothing
    of the new cycle in flight. *)
Theorem acquisition_cycle_reaches_ready cfg w i a d c2 c3 :
  wg_support cfg = true -> i <> null -> a <> null -> d <> null ->
  exists w' os,
    run cfg (acquisition_cycle i a d c2 c3) w = Some (w', os) /\
    gpu w' = mkState i a d true true false /\
    init_returns os = [PENDING; PENDING; READY] /\
    adapter_requests os = 1%nat /\ device_requests os = 1%nat /\
    liveAdapter w' = O /\ liveDevice w' = O.
Proof.
  intros Hwg Hi Ha Hd.
  apply is_null_false in Hi, Ha, Hd.
  unfold acquisition_cycle, run, step, term, init,
    onAdapterRequestEnded, onDeviceRequestEnded.
  rewrite Hwg.
  destruct (is_null (device (gpu w))), (is_null (adapter (gpu w))),
    (is_null (instance (gpu w)));
    repeat (progress (simpl; rewrite ?Hi, ?Ha, ?Hd));
    eexists; eexists; (split; [reflexivity|]); simpl;
    repeat split; reflexivity.
Qed.

Lemma acquisition_cycle_reaches_ready_witness :
  exists w' os,
    run full_build (acquisition_cycle 1 2 3 4 5)
        (mkWorld (mkState 7 8 null true true true) 0 1 0 0)
      = Some (w', os) /\
    gpu w' = mkState 1 2 3 true true false /\
    init_returns os = [PENDING; PENDING; READY] /\
    adapter_requests os = 1%nat /\ device_requests os = 1%nat /\
    liveAdapter w' = O /\ liveDevice w' = O.
Proof.
  apply (acquisition_cycle_reaches_ready full_build
           (mkWorld (mkState 7 8 null true true true) 0 1 0 0) 1 2 3 4 5).
  - reflexivity.
  - discriminate.
  - discriminate.
  - discriminate.
Defined.





Lemma step_without_gpu cfg e w' os :
  wg_support cfg = false ->
  step cfg boot e = Some (w', os) ->
  w' = boot /\ Forall (fun o => o = InitReturned READY) os.
Proof.
  intros Hwg H. destruct e as [c| |[|] [|] ok h]; simpl in H;
    try discriminate H.
  - unfold init in H. rewrite Hwg in H. inversion H; subst.
    split; [reflexivity | repeat constructor].
  - unfold term in H. rewrite Hwg in H. inversion H; subst.
    split; [reflexivity | constructor].
Qed.

(** A build without the GPU backend has no asynchronous step: from
    start-up every [init()] returns 0, [init()] and [term()] make no
    runtime call and never change the globals, and no completion is
    ever enabled. *)
Theorem without_gpu_always_ready cfg tr w os :
  wg_support cfg = false ->
  run cfg tr boot = Some (w, os) ->
  w = boot /\ runtime_calls os = [] /\
  Forall (fun r => r = READY) (init_returns os) /\
  Forall (fun e => match e with Completion _ _ _ _ => False | _ => True end)
         tr.
Proof.
  intros Hwg. revert w os.
  induction tr as [|e tr IH]; intros w os Hrun; simpl in Hrun.
  - inversion Hrun; subst. repeat split; constructor.
  - destruct (step cfg boot e) as [[w1 o1]|] eqn:Es; [|discriminate].
    destruct (run cfg tr w1) as [[w2 o2]|] eqn:Er; [|discriminate].
    inversion Hrun; subst.
    destruct (step_without_gpu _ _ _ _ Hwg Es) as [-> Ho1].
    destruct (IH _ _ Er) as (-> & Hc & Hr & Htr).
    assert (He : match e with Completion _ _ _ _ => False | _ => True end).
    { destruct e as [c| |[|] [|] ok h]; simpl in Es; try discriminate Es;
        exact I. }
    unfold runtime_calls, init_returns in *.
    rewrite !flat_map_app, Hc.
    repeat split.
    + rewrite app_nil_r. clear - Ho1.
      induction Ho1 as [|o l -> _ IHl]; simpl; auto.
    + apply Forall_app. split; [|exact Hr]. clear - Ho1.
      induction Ho1 as [|o l -> _ IHl]; simpl; auto.
    + constructor; assumption.
Qed.

Lemma without_gpu_always_ready_witness :
  boot = boot /\
  runtime_calls [InitReturned READY; InitReturned READY] = [] /\
  Forall (fun r => r = READY)
         (init_returns [InitReturned READY; InitReturned READY]) /\
  Forall (fun e => match e with Completion _ _ _ _ => False | _ => True end)
         [CallInit 1; CallTerm; CallInit 1].
Proof.
  apply (without_gpu_always_ready sw_only_build
           [CallInit 1; CallTerm; CallInit 1] boot
           [InitReturned READY; InitReturned READY]).
  - reflexivity.
  - reflexivity.
Defined.

End Polling_theory.

(** ** More on the render-target manager *)

Section Lifecycle_theory.
Import Engine Lifecycle.

Ltac cases :=
  repeat match goal with
         | |- context [if ?b then _ else _] =>
             let E := fresh "E" in destruct b eqn:E; simpl
         end.

Ltac tests :=
  repeat match goal with
         | E : is_null _ = true |- _ => apply is_null_true in E
         | E : is_null _ = false |- _ => apply is_null_false in E
         | E : (_ =? _)%string = true |- _ => apply String.eqb_eq in E
         | E : (_ =? _)%string = false |- _ => apply String.eqb_neq in E
         | E : (_ =? _) = true |- _ => apply Z.eqb_eq in E
         | E : (_ =? _) = false |- _ => apply Z.eqb_neq in E
         | E : _ && _ = true |- _ => apply andb_true_iff in E; destruct E
         | E : _ && _ = false |- _ => apply andb_false_iff in E; destruct E
         | E : negb _ = true |- _ => apply negb_true_iff in E
         | E : negb _ = false |- _ => apply negb_false_iff in E
         end.

Lemma createCanvas_handle cfg env g engine sel w h m :
  canvas m = null ->
  fst (fst (createCanvas cfg env g engine sel w h m))
  = canvas (snd (fst (createCanvas cfg env g engine sel w h m))).
Proof.
  intros Hc. unfold createCanvas.
  cases; tests; simpl; unfold null in *; congruence.
Qed.

(** On a manager without a canvas, the handle [createCanvas] returns is
    the one [getCanvas()] gives afterwards, zero included; and it is
    non-zero exactly when [clear()] then succeeds. *)
Theorem createCanvas_returns_getCanvas cfg env g engine sel w h m :
  canvas m = null ->
  fst (fst (createCanvas cfg env g engine sel w h m))
  = getCanvas (snd (fst (createCanvas cfg env g engine sel w h m))) /\
  (fst (fst (createCanvas cfg env g engine sel w h m)) <> 0 <->
   fst (fst (clear (snd (fst (createCanvas cfg env g engine sel w h m)))))
   = true).
Proof.
  intros Hc. pose proof (createCanvas_handle cfg env g engine sel w h m Hc)
    as Hh.
  split; [exact Hh|]. rewrite Hh. unfold clear.
  destruct (is_null (canvas _)) eqn:E; simpl; tests.
  - split; [contradiction | discriminate].
  - split; auto.
Qed.

Lemma createCanvas_returns_getCanvas_witness :
  fst (fst (createCanvas full_build plentiful WebGPU.fresh "gl" "#canvas"
              640 480 new_engine))
  = getCanvas (snd (fst (createCanvas full_build plentiful WebGPU.fresh "gl"
                           "#canvas" 640 480 new_engine))) /\
  (fst (fst (createCanvas full_build plentiful WebGPU.fresh "gl" "#canvas"
               640 480 new_engine)) <> 0 <->
   fst (fst (clear (snd (fst (createCanvas full_build plentiful WebGPU.fresh
                                "gl" "#canvas" 640 480 new_engine)))))
   = true).
Proof.
  apply (createCanvas_returns_getCanvas full_build plentiful WebGPU.fresh
           "gl" "#canvas" 640 480 new_engine).
  reflexivity.
Defined.

(** On a manager without a canvas, [createCanvas] returns a non-zero
    handle exactly when the engine set-up succeeds and the named backend
    is compiled in and obtains all it needs: canvas and pixel buffer for
    "sw", context and canvas for "gl", surface and canvas for "wg". *)
Theorem createCanvas_success_iff cfg env g engine sel w h m :
  canvas m = null ->
  (fst (fst (createCanvas cfg env g engine sel w h m)) <> 0 <->
   engine_init_success env = true /\
   ((sw_support cfg = true /\ engine = "sw"%string /\
     sw_canvas env <> null /\ allocated env (buffer_bytes w h) <> null) \/
    (gl_support cfg = true /\ engine = "gl"%string /\
     webgl_context env sel <> 0 /\ gl_canvas env <> null) \/
    (wg_support cfg = true /\ engine = "wg"%string /\
     wg_surface env (WebGPU.instance g) sel <> null /\
     wg_canvas env <> null))).
Proof.
  intros Hc. unfold createCanvas.
  cases; tests; simpl; unfold null in *; subst;
    intuition (try congruence; try discriminate).
Qed.

Lemma createCanvas_success_iff_witness :
  fst (fst (createCanvas full_build exhausted WebGPU.fresh "sw" "#canvas"
              800 600 new_engine)) <> 0 <->
  engine_init_success exhausted = true /\
  ((sw_support full_build = true /\ "sw"%string = "sw"%string /\
    sw_canvas exhausted <> null /\
    allocated exhausted (buffer_bytes 800 600) <> null) \/
   (gl_support full_build = true /\ "sw"%string = "gl"%string /\
    webgl_context exhausted "#canvas" <> 0 /\ gl_canvas exhausted <> null) \/
   (wg_support full_build = true /\ "sw"%string = "wg"%string /\
    wg_surface exhausted (WebGPU.instance WebGPU.fresh) "#canvas" <> null /\
    wg_canvas exhausted <> null)).
Proof.
  apply (createCanvas_success_iff full_build exhausted WebGPU.fresh "sw"
           "#canvas" 800 600 new_engine).
  reflexivity.
Defined.

(** On a manager that holds neither canvas nor buffer, the buffer is
    non-null after [createCanvas] exactly when the backend named is
    "sw" and the call returned a non-zero handle. *)
Theorem buffer_iff_sw_target cfg env g engine sel w h m :
  canvas m = null -> buffer m = null ->
  (buffer (snd (fst (createCanvas cfg env g engine sel w h m))) <> null <->
   engine = "sw"%string /\
   fst (fst (createCanvas cfg env g engine sel w h m)) <> 0).
Proof.
  intros Hc Hb. unfold createCanvas.
  cases; tests; simpl; unfold null in *; subst;
    intuition (try congruence; try discriminate).
Qed.

Lemma buffer_iff_sw_target_witness :
  buffer (snd (fst (createCanvas full_build plentiful WebGPU.fresh "gl"
                      "#canvas" 640 480 new_engine))) <> null <->
  "gl"%string = "sw"%string /\
  fst (fst (createCanvas full_build plentiful WebGPU.fresh "gl" "#canvas"
              640 480 new_engine)) <> 0.
Proof.
  apply (buffer_iff_sw_target full_build plentiful WebGPU.fresh "gl"
           "#canvas" 640 480 new_engine); reflexivity.
Defined.

(** A successful software target: when engine set-up, canvas and buffer
    allocation succeed, [createCanvas] for "sw" returns the canvas
    generated, binds it to the new buffer with row stride [w], and
    afterwards [render()] is a view of [w*h*4] bytes (32-bit product)
    over that buffer, [size()] is [w] by [h], [getCanvas()] is the
    handle returned and [clear()] succeeds. *)
Theorem createCanvas_sw_target cfg env g sel w h m :
  sw_support cfg = true ->
  engine_init_success env = true ->
  sw_canvas env <> null ->
  allocated env (buffer_bytes w h) <> null ->
  exists m',
    createCanvas cfg env g "sw" sel w h m =
      (sw_canvas env, m',
       [Initializer_init; Text_load; SwCanvas_gen; malloc (buffer_bytes w h);
        SwCanvas_target (sw_canvas env) (allocated env (buffer_bytes w h))
                        w w h]) /\
    render m' = typed_memory_view (buffer_bytes w h)
                                  (allocated env (buffer_bytes w h)) /\
    size m' = size_object w h /\
    getCanvas m' = sw_canvas env /\
    getEngineType m' = "sw"%string /\
    fst (fst (clear m')) = true.
Proof.
  intros Hsw Hinit Hc Hb. apply is_null_false in Hc, Hb.
  unfold createCanvas. rewrite Hsw, Hinit. simpl. rewrite Hc, Hb. simpl.
  eexists. split; [reflexivity|].
  unfold render, clear, size, getCanvas, getEngineType. simpl.
  rewrite Hc, Hb. simpl. repeat split; reflexivity.
Qed.

Lemma createCanvas_sw_target_witness :
  exists m',
    createCanvas full_build plentiful WebGPU.fresh "sw" "#canvas" 800 600
      new_engine =
      (sw_canvas plentiful, m',
       [Initializer_init; Text_load; SwCanvas_gen;
        malloc (buffer_bytes 800 600);
        SwCanvas_target (sw_canvas plentiful)
                        (allocated plentiful (buffer_bytes 800 600))
                        800 800 600]) /\
    render m' = typed_memory_view (buffer_bytes 800 600)
                  (allocated plentiful (buffer_bytes 800 600)) /\
    size m' = size_object 800 600 /\
    getCanvas m' = sw_canvas plentiful /\
    getEngineType m' = "sw"%string /\
    fst (fst (clear m')) = true.
Proof.
  apply (createCanvas_sw_target full_build plentiful WebGPU.fresh "#canvas"
           800 600 new_engine).
  - reflexivity.
  - reflexivity.
  - discriminate.
  - discriminate.
Defined.

(** A successful software resize: on a software target, [resize(w, h)]
    to other dimensions whose reallocation succeeds syncs the canvas,
    frees the old buffer, allocates [w*h*4] bytes (32-bit product) and
    re-binds the same canvas to the new buffer; it returns true, and
    afterwards [size()] is [w] by [h] and [render()] a view of the new
    length over the new buffer. *)
Theorem resize_sw_reallocates cfg env g m w h :
  sw_support cfg = true ->
  canvas m <> null ->
  engine_type m = "sw"%string ->
  (w, h) <> (width m, height m) ->
  allocated env (buffer_bytes w h) <> null ->
  exists m',
    resize cfg env g w h m =
      (true, m',
       [Canvas_sync (canvas m); free (buffer m); malloc (buffer_bytes w h);
        SwCanvas_target (canvas m) (allocated env (buffer_bytes w h))
                        w w h]) /\
    getCanvas m' = canvas m /\
    size m' = size_object w h /\
    render m' = typed_memory_view (buffer_bytes w h)
                                  (allocated env (buffer_bytes w h)).
Proof.
  intros Hsw Hc He Hd Hb. apply is_null_false in Hc, Hb.
  unfold resize. rewrite Hc.
  destruct ((width m =? w) && (height m =? h)) eqn:Esame.
  - apply andb_true_iff in Esame. destruct Esame as [E1 E2].
    apply Z.eqb_eq in E1, E2. subst. contradiction Hd. reflexivity.
  - simpl. rewrite He, Hsw. simpl. rewrite Hb.
    eexists. split; [reflexivity|].
    unfold render, size, getCanvas. simpl. rewrite Hb, He. simpl.
    repeat split; reflexivity.
Qed.

Lemma resize_sw_reallocates_witness :
  exists m',
    resize full_build plentiful WebGPU.fresh 1024 768 sw_800_600 =
      (true, m',
       [Canvas_sync (canvas sw_800_600); free (buffer sw_800_600);
        malloc (buffer_bytes 1024 768);
        SwCanvas_target (canvas sw_800_600)
                        (allocated plentiful (buffer_bytes 1024 768))
                        1024 1024 768]) /\
    getCanvas m' = canvas sw_800_600 /\
    size m' = size_object 1024 768 /\
    render m' = typed_memory_view (buffer_bytes 1024 768)
                  (allocated plentiful (buffer_bytes 1024 768)).
Proof.
  apply (resize_sw_reallocates full_build plentiful WebGPU.fresh sw_800_600
           1024 768).
  - reflexivity.
  - discriminate.
  - reflexivity.
  - discriminate.
  - discriminate.
Defined.

(** [resize] fails in exactly two situations: there is no canvas, or
    the dimensions change on a software target (backend compiled in)
    and the reallocation of the pixel buffer returns null. *)
Theorem resize_fails_iff cfg env g m w h :
  fst (fst (resize cfg env g w h m)) = false <->
  canvas m = null \/
  ((width m <> w \/ height m <> h) /\
   sw_support cfg = true /\ engine_type m = "sw"%string /\
   allocated env (buffer_bytes w h) = null).
Proof.
  unfold resize.
  cases; tests; simpl; unfold null in *;
    intuition (try congruence; try discriminate).
Qed.

(** On a target of another backend than "sw", [resize] always succeeds
    and never touches the pixel buffer: no [free], no [malloc], the
    buffer pointer and the canvas are the same, and the requested
    dimensions are recorded. *)
Theorem resize_other_backends cfg env g m w h :
  canvas m <> null ->
  engine_type m <> "sw"%string ->
  fst (fst (resize cfg env g w h m)) = true /\
  buffer (snd (fst (resize cfg env g w h m))) = buffer m /\
  canvas (snd (fst (resize cfg env g w h m))) = canvas m /\
  size (snd (fst (resize cfg env g w h m))) = size_object w h /\
  Forall (fun c => match c with
                   | malloc _ | free _ => False
                   | _ => True
                   end) (snd (resize cfg env g w h m)).
Proof.
  intros Hc He. apply is_null_false in Hc. apply String.eqb_neq in He.
  unfold resize, size. rewrite Hc.
  destruct ((width m =? w) && (height m =? h)) eqn:Esame; simpl.
  - apply andb_true_iff in Esame. destruct Esame as [E1 E2].
    apply Z.eqb_eq in E1, E2. subst. repeat split; constructor.
  - rewrite He. cases; repeat split; repeat constructor.
Qed.

Lemma resize_other_backends_witness :
  let m := mkEngine 200 null 640 480 "gl" null 7 in
  fst (fst (resize full_build exhausted WebGPU.fresh 1024 768 m)) = true /\
  buffer (snd (fst (resize full_build exhausted WebGPU.fresh 1024 768 m)))
    = buffer m /\
  canvas (snd (fst (resize full_build exhausted WebGPU.fresh 1024 768 m)))
    = canvas m /\
  size (snd (fst (resize full_build exhausted WebGPU.fresh 1024 768 m)))
    = size_object 1024 768 /\
  Forall (fun c => match c with
                   | malloc _ | free _ => False
                   | _ => True
                   end)
         (snd (resize full_build exhausted WebGPU.fresh 1024 768 m)).
Proof.
  apply (resize_other_backends full_build exhausted WebGPU.fresh
           (mkEngine 200 null 640 480 "gl" null 7) 1024 768).
  - discriminate.
  - discriminate.
Defined.

Lemma track_app k l1 : forall held l2,
  track k held (l1 ++ l2) =
  match track k held l1 with
  | Some held' => track k held' l2
  | None => None
  end.
Proof.
  induction l1 as [|[k' x | k' x] l1 IH]; intros held l2; simpl.
  - reflexivity.
  - destruct (kind_eqb k k'); [destruct held|]; auto.
  - destruct (kind_eqb k k'); [|auto].
    destruct held as [y|]; [|reflexivity].
    destruct (x =? y); auto.
Qed.

Ltac own_eq :=
  try reflexivity; try congruence;
  try match goal with
      | E : (?x =? ?x) = false |- _ => rewrite Z.eqb_refl in E; discriminate E
      end;
  try (exfalso; unfold is_null in *; tests; unfold null in *; congruence).

Lemma resize_conserves cfg env g m w h k :
  track k (owned cfg k m)
        (flat_map (movements env) (snd (resize cfg env g w h m)))
  = Some (owned cfg k (snd (fst (resize cfg env g w h m)))).
Proof.
  unfold resize.
  destruct k; cases; unfold obtained, owned; simpl; cases;
    own_eq.
Qed.

Lemma createCanvas_conserves cfg env g engine sel w h m k :
  no_resources m ->
  track k None
        (flat_map (movements env)
                  (snd (createCanvas cfg env g engine sel w h m)))
  = Some (owned cfg k
            (snd (fst (createCanvas cfg env g engine sel w h m)))).
Proof.
  unfold no_resources, null. destruct m as [c b wd ht et sf gc]. simpl.
  intros (-> & -> & -> & ->).
  unfold createCanvas, owned.
  destruct (sw_support cfg), (gl_support cfg), (wg_support cfg), k; simpl;
    cases; unfold obtained; simpl; cases; own_eq.
Qed.

Lemma destructor_releases_owned cfg m k :
  track k (owned cfg k m)
        (flat_map teardown_movements (snd (destructor cfg m)))
  = Some None.
Proof.
  unfold destructor, owned.
  destruct (gl_support cfg), (wg_support cfg), k; simpl;
    cases; rewrite ?flat_map_app; simpl; cases; own_eq.
Qed.

Lemma apply_ops_conserves cfg g k ops : forall m,
  track k (owned cfg k m) (snd (apply_ops cfg g ops m))
  = Some (owned cfg k (fst (apply_ops cfg g ops m))).
Proof.
  induction ops as [|o ops IH]; intros m; simpl; [reflexivity|].
  destruct (apply_op cfg g o m) as [m1 l1] eqn:Eo.
  specialize (IH m1).
  destruct (apply_ops cfg g ops m1) as [m2 l2]. simpl in *.
  rewrite track_app.
  assert (H1 : track k (owned cfg k m) l1 = Some (owned cfg k m1)).
  { destruct o as [env w h|]; simpl in Eo.
    - pose proof (resize_conserves cfg env g m w h k) as Hr.
      destruct (resize cfg env g w h m) as [[r m'] cs]. simpl in Hr.
      inversion Eo; subst. exact Hr.
    - unfold clear in Eo. destruct (is_null (canvas m));
        inversion Eo; subst; reflexivity. }
  rewrite H1. exact IH.
Qed.

(** [resize] conserves every kind of resource, on any manager: what the
    object owned before, with what the call obtained and gave back in
    that order, is what the object owns afterwards; nothing is lost and
    nothing is released that was not owned. *)
Theorem resize_neither_leaks_nor_double_frees cfg env g m w h k :
  track k (owned cfg k m)
        (flat_map (movements env) (snd (resize cfg env g w h m)))
  = Some (owned cfg k (snd (fst (resize cfg env g w h m)))).
Proof. apply resize_conserves. Qed.

(** A whole life is balanced: for a manager that is constructed, given
    one [createCanvas] (any backend name, any outcome), then any number
    of [resize] and [clear] calls (any outcomes), and destroyed, every
    canvas, pixel buffer, GL context and GPU surface obtained is given
    back exactly once, nothing is released that is not owned, and
    nothing is owned at the end. *)
Theorem life_is_balanced cfg g env engine sel w h ops k :
  track k None (life cfg g env engine sel w h ops) = Some None.
Proof.
  unfold life.
  assert (Hfresh : no_resources new_engine)
    by (unfold no_resources; simpl; auto).
  pose proof (createCanvas_conserves cfg env g engine sel w h new_engine k
                Hfresh) as Hc.
  destruct (createCanvas cfg env g engine sel w h new_engine)
    as [[hd m1] cs1]. simpl in Hc.
  pose proof (apply_ops_conserves cfg g k ops m1) as Ho.
  destruct (apply_ops cfg g ops m1) as [m2 l2]. simpl in Ho.
  rewrite track_app, Hc, track_app, Ho.
  apply destructor_releases_owned.
Qed.

Lemma resize_keeps cfg env g m w h :
  let m' := snd (fst (resize cfg env g w h m)) in
  canvas m' = canvas m /\ engine_type m' = engine_type m /\
  surface m' = surface m /\ gl_context m' = gl_context m /\
  (engine_type m <> "sw"%string -> buffer m' = buffer m).
Proof.
  unfold resize. cases; tests; repeat split; intros; congruence.
Qed.

(** The handle stays good: whatever [resize] and [clear] calls follow,
    with whatever outcome, the canvas handle, the backend tag, the GPU
    surface and the GL context of the manager are those it had, and on
    a backend other than "sw" so is the buffer pointer. *)
Theorem operations_keep_target cfg g ops m :
  let m' := fst (apply_ops cfg g ops m) in
  getCanvas m' = getCanvas m /\ getEngineType m' = getEngineType m /\
  surface m' = surface m /\ gl_context m' = gl_context m /\
  (engine_type m <> "sw"%string -> buffer m' = buffer m).
Proof.
  unfold getCanvas, getEngineType. revert m.
  induction ops as [|o ops IH]; intros m; simpl; [repeat split|].
  destruct (apply_op cfg g o m) as [m1 l1] eqn:Eo.
  specialize (IH m1). destruct (apply_ops cfg g ops m1) as [m2 l2].
  simpl in *.
  assert (H1 : canvas m1 = canvas m /\ engine_type m1 = engine_type m /\
               surface m1 = surface m /\ gl_context m1 = gl_context m /\
               (engine_type m <> "sw"%string -> buffer m1 = buffer m)).
  { destruct o as [env w h|]; simpl in Eo.
    - pose proof (resize_keeps cfg env g m w h) as Hr.
      destruct (resize cfg env g w h m) as [[r m'] cs]. simpl in Hr.
      inversion Eo; subst. exact Hr.
    - unfold clear in Eo. destruct (is_null (canvas m));
        inversion Eo; subst; repeat split. }
  destruct H1 as (Ha & Hb & Hc & Hd & He).
  destruct IH as (Ia & Ib & Ic & Id & Ie).
  rewrite Ia, Ib, Ic, Id, Ha, Hb, Hc, Hd. repeat split.
  intros Hn. rewrite Ie, He; [reflexivity | assumption | congruence].
Qed.

(** [createCanvas] gives nothing back that the manager held: called on
    a manager that already owns a software target, a second successful
    "sw" creation makes no [free] and no [delete], overwrites both
    fields, and so loses the first canvas and the first buffer. *)
Theorem second_createCanvas_loses_first_target cfg env g sel w h m :
  sw_support cfg = true ->
  engine_init_success env = true ->
  sw_canvas env <> null ->
  allocated env (buffer_bytes w h) <> null ->
  canvas m <> null -> buffer m <> null ->
  let cs := snd (createCanvas cfg env g "sw" sel w h m) in
  Forall (fun c => match c with
                   | free _ | delete_canvas _ => False
                   | _ => True
                   end) cs /\
  track CanvasObject (owned cfg CanvasObject m)
        (flat_map (movements env) cs) = None /\
  track PixelBuffer (owned cfg PixelBuffer m)
        (flat_map (movements env) cs) = None.
Proof.
  intros Hsw Hinit Hc Hb Hmc Hmb.
  apply is_null_false in Hc, Hb, Hmc, Hmb.
  unfold createCanvas. rewrite Hsw, Hinit. simpl. rewrite Hc, Hb. simpl.
  unfold obtained, owned. rewrite Hc, Hb, Hmc, Hmb. simpl.
  repeat split; repeat constructor.
Qed.

Lemma second_createCanvas_loses_first_target_witness :
  let cs := snd (createCanvas full_build plentiful WebGPU.fresh "sw"
                   "#canvas" 320 200 sw_800_600) in
  Forall (fun c => match c with
                   | free _ | delete_canvas _ => False
                   | _ => True
                   end) cs /\
  track CanvasObject (owned full_build CanvasObject sw_800_600)
        (flat_map (movements plentiful) cs) = None /\
  track PixelBuffer (owned full_build PixelBuffer sw_800_600)
        (flat_map (movements plentiful) cs) = None.
Proof.
  apply (second_createCanvas_loses_first_target full_build plentiful
           WebGPU.fresh "#canvas" 320 200 sw_800_600);
    try reflexivity; discriminate.
Defined.

(** Retrying a failed resize does not repair it: after [resize(w, h)]
    has failed on a software target for want of memory, a second
    [resize(w, h)] with the same arguments returns true without making
    any call, whatever the allocator would now answer, because [w] and
    [h] are already recorded; the buffer stays null and [render()]
    stays undefined. *)
Theorem retry_after_failed_resize cfg env env' g m w h :
  sw_support cfg = true ->
  canvas m <> null ->
  engine_type m = "sw"%string ->
  (w, h) <> (width m, height m) ->
  oom env w h ->
  let m1 := snd (fst (resize cfg env g w h m)) in
  fst (fst (resize cfg env g w h m)) = false /\
  resize cfg env' g w h m1 = (true, m1, []) /\
  buffer m1 = null /\ render m1 = undefined.
Proof.
  intros Hsw Hc He Hd Hoom. apply is_null_false in Hc.
  unfold oom in Hoom. unfold resize at 1 2 3. rewrite Hc.
  destruct ((width m =? w) && (height m =? h)) eqn:Esame.
  - apply andb_true_iff in Esame. destruct Esame as [E1 E2].
    apply Z.eqb_eq in E1, E2. subst. contradiction Hd. reflexivity.
  - simpl. rewrite He, Hsw. simpl. rewrite Hoom. simpl.
    unfold resize, render. simpl. rewrite Hc, !Z.eqb_refl. simpl.
    repeat split; reflexivity.
Qed.

Lemma retry_after_failed_resize_witness :
  let m1 := snd (fst (resize full_build exhausted WebGPU.fresh 1024 768
                        sw_800_600)) in
  fst (fst (resize full_build exhausted WebGPU.fresh 1024 768 sw_800_600))
    = false /\
  resize full_build plentiful WebGPU.fresh 1024 768 m1 = (true, m1, []) /\
  buffer m1 = null /\ render m1 = undefined.
Proof.
  apply (retry_after_failed_resize full_build exhausted plentiful
           WebGPU.fresh sw_800_600 1024 768).
  - reflexivity.
  - discriminate.
  - reflexivity.
  - discriminate.
  - reflexivity.
Defined.

(** Wrap-around of the buffer size: the size handed to [malloc] and
    given to the view of [render()] is the 32-bit product.  It lies in
    [0, 2^32), equals [w*h*4] when that fits 32 bits and is smaller
    otherwise, while the canvas is still bound as [w] by [h] pixels. *)
Theorem createCanvas_sw_buffer_size cfg env g sel w h m :
  sw_support cfg = true ->
  engine_init_success env = true ->
  sw_canvas env <> null ->
  allocated env (buffer_bytes w h) <> null ->
  0 <= w -> 0 <= h ->
  exists n buf,
    0 <= n < 2 ^ 32 /\
    (w * h * 4 < 2 ^ 32 -> n = w * h * 4) /\
    (2 ^ 32 <= w * h * 4 -> n < w * h * 4) /\
    In (malloc n) (snd (createCanvas cfg env g "sw" sel w h m)) /\
    In (SwCanvas_target (sw_canvas env) buf w w h)
       (snd (createCanvas cfg env g "sw" sel w h m)) /\
    render (snd (fst (createCanvas cfg env g "sw" sel w h m)))
    = typed_memory_view n buf.
Proof.
  intros Hsw Hinit Hc Hb Hw Hh. apply is_null_false in Hc, Hb.
  exists (buffer_bytes w h), (allocated env (buffer_bytes w h)).
  assert (Hn : buffer_bytes w h = (w * h * 4) mod 2 ^ 32).
  { unfold buffer_bytes, u32_mul, u32.
    rewrite Z.mul_mod_idemp_l by (apply Z.pow_nonzero; lia). reflexivity. }
  assert (Hpos : 0 < 2 ^ 32) by (apply Z.pow_pos_nonneg; lia).
  split; [rewrite Hn; apply Z.mod_pos_bound; exact Hpos|].
  split; [intros Hfit; rewrite Hn; apply Z.mod_small; nia|].
  split.
  { intros Hbig. rewrite Hn.
    pose proof (Z.mod_pos_bound (w * h * 4) (2 ^ 32) Hpos). lia. }
  unfold createCanvas. rewrite Hsw, Hinit. simpl. rewrite Hc, Hb. simpl.
  unfold render. simpl. rewrite Hb. simpl.
  repeat split; auto 10.
Qed.

Lemma createCanvas_sw_buffer_size_witness :
  exists n buf,
    0 <= n < 2 ^ 32 /\
    (65536 * 16384 * 4 < 2 ^ 32 -> n = 65536 * 16384 * 4) /\
    (2 ^ 32 <= 65536 * 16384 * 4 -> n < 65536 * 16384 * 4) /\
    In (malloc n)
       (snd (createCanvas full_build plentiful WebGPU.fresh "sw" "#canvas"
               65536 16384 new_engine)) /\
    In (SwCanvas_target (sw_canvas plentiful) buf 65536 65536 16384)
       (snd (createCanvas full_build plentiful WebGPU.fresh "sw" "#canvas"
               65536 16384 new_engine)) /\
    render (snd (fst (createCanvas full_build plentiful WebGPU.fresh "sw"
                        "#canvas" 65536 16384 new_engine)))
    = typed_memory_view n buf.
Proof.
  apply (createCanvas_sw_buffer_size full_build plentiful WebGPU.fresh
           "#canvas" 65536 16384 new_engine).
  - reflexivity.
  - reflexivity.
  - discriminate.
  - discriminate.
  - lia.
  - lia.
Defined.

(** [createCanvas] does not look at the state of [init()]: of the
    WebGPU globals only [instance] reaches what it returns and the
    object it leaves; adapter, device and the three flags do not. *)
Theorem createCanvas_ignores_readiness cfg env g1 g2 engine sel w h m :
  WebGPU.instance g1 = WebGPU.instance g2 ->
  fst (createCanvas cfg env g1 engine sel w h m)
  = fst (createCanvas cfg env g2 engine sel w h m).
Proof.
  intros Hi. unfold createCanvas. rewrite Hi. cases; reflexivity.
Qed.

Lemma createCanvas_ignores_readiness_witness :
  fst (createCanvas full_build plentiful
         (WebGPU.mkState 1 null null true false false) "wg" "#canvas"
         640 480 new_engine)
  = fst (createCanvas full_build plentiful
           (WebGPU.mkState 1 2 3 true true false) "wg" "#canvas"
           640 480 new_engine).
Proof.
  apply (createCanvas_ignores_readiness full_build plentiful
           (WebGPU.mkState 1 null null true false false)
           (WebGPU.mkState 1 2 3 true true false)
           "wg" "#canvas" 640 480 new_engine).
  reflexivity.
Defined.

(** Polling before creating pays off: once [init()] has returned 0,
    a "wg" [createCanvas] whose surface and canvas are obtained binds
    the canvas to a non-null device, a non-null instance and the new
    surface, and returns the canvas. *)
Theorem ready_then_wg_target cfg env c g0 g cs0 sel w h m :
  wg_support cfg = true ->
  c <> null ->
  WebGPU.init cfg c g0 = (WebGPU.READY, g, cs0) ->
  engine_init_success env = true ->
  wg_surface env (WebGPU.instance g) sel <> null ->
  wg_canvas env <> null ->
  WebGPU.device g <> null /\ WebGPU.instance g <> null /\
  fst (fst (createCanvas cfg env g "wg" sel w h m)) = wg_canvas env /\
  snd (createCanvas cfg env g "wg" sel w h m) =
    [Initializer_init; Text_load;
     wgpuInstanceCreateSurface (WebGPU.instance g) sel; WgCanvas_gen;
     WgCanvas_target (wg_canvas env) (WebGPU.device g) (WebGPU.instance g)
                     (wg_surface env (WebGPU.instance g) sel) w h].
Proof.
  intros Hwg Hc Hi Hinit Hs Hcv.
  destruct (init_ready_nonnull cfg c g0 g cs0 Hwg Hc Hi)
    as (Hin & _ & Hdev & _).
  apply is_null_false in Hs, Hcv.
  unfold createCanvas. rewrite Hwg, Hinit. simpl.
  rewrite andb_false_r. simpl. rewrite Hs, Hcv. simpl.
  repeat split; assumption.
Qed.

Lemma ready_then_wg_target_witness :
  let g := WebGPU.mkState 1 2 3 true true false in
  WebGPU.device g <> null /\ WebGPU.instance g <> null /\
  fst (fst (createCanvas full_build plentiful g "wg" "#canvas" 640 480
              new_engine)) = wg_canvas plentiful /\
  snd (createCanvas full_build plentiful g "wg" "#canvas" 640 480
         new_engine) =
    [Initializer_init; Text_load;
     wgpuInstanceCreateSurface (WebGPU.instance g) "#canvas"; WgCanvas_gen;
     WgCanvas_target (wg_canvas plentiful) (WebGPU.device g)
                     (WebGPU.instance g)
                     (wg_surface plentiful (WebGPU.instance g) "#canvas")
                     640 480].
Proof.
  apply (ready_then_wg_target full_build plentiful 1
           (WebGPU.mkState 1 2 3 true true false)
           (WebGPU.mkState 1 2 3 true true false) []
           "#canvas" 640 480 new_engine).
  - reflexivity.
  - discriminate.
  - reflexivity.
  - reflexivity.
  - discriminate.
  - discriminate.
Defined.

End Lifecycle_theory.
